(** * Conversation / report orchestration core of the mental-health chatbot

    A shallow embedding of [src/services/HuggingFaceService.ts], of
    [src/services/GeminiService.ts] and of the provider component of
    [src/context/ConversationContext.tsx], with the properties of the
    orchestration core and of the two adapters stated and proved over it.

    Conventions of the embedding:
    - a JavaScript string is the list of its UTF-16 code units ([list N]);
    - React state is a record, every [setX] call is a state update applied
      in program order (all list updates of the source use functional
      updaters, except the greeting, which stores a fresh list);
    - [messagesRef] is a separate field: it only changes when the
      synchronising effect runs, after a commit;
    - an [async] function is cut at its single suspension point into the
      part that runs up to the [await] and the part that resumes with the
      outcome of the awaited call;
    - what the environment supplies (identifiers of [uuidv4], clock
      readings, the outcome of [fetch]) is an argument of the operation. *)

From Stdlib Require Import Ascii String DecimalString.
From Stdlib Require Import List NArith ZArith Bool Lia.
Import ListNotations.

Set Warnings "-register-all".

(** ** JavaScript strings and the built-ins the sources call *)
Module JS.

Definition jsstring := list N.

(** Code units of an ASCII literal of the source. *)
Definition str (s : string) : jsstring :=
  map N_of_ascii (list_ascii_of_string s).

Fixpoint jsstring_eqb (a b : jsstring) : bool :=
  match a, b with
  | [], [] => true
  | x :: a', y :: b' => N.eqb x y && jsstring_eqb a' b'
  | _, _ => false
  end.

(** ToBoolean on a string: only the empty string is falsy. *)
Definition truthy_string (s : jsstring) : bool :=
  match s with [] => false | _ :: _ => true end.

(** WhiteSpace and LineTerminator code points, as removed by
    [String.prototype.trim]. *)
Definition isWhiteSpace (c : N) : bool :=
  ((9 <=? c) && (c <=? 13) || (c =? 32) || (c =? 160) || (c =? 5760)
   || (8192 <=? c) && (c <=? 8202) || (c =? 8232) || (c =? 8233)
   || (c =? 8239) || (c =? 8287) || (c =? 12288) || (c =? 65279))%N.

Fixpoint trimStart (s : jsstring) : jsstring :=
  match s with
  | [] => []
  | c :: r => if isWhiteSpace c then trimStart r else s
  end.

Definition trimEnd (s : jsstring) : jsstring := rev (trimStart (rev s)).

Definition trim (s : jsstring) : jsstring := trimEnd (trimStart s).

Fixpoint startsWith (p s : jsstring) : bool :=
  match p, s with
  | [], _ => true
  | x :: p', y :: s' => N.eqb x y && startsWith p' s'
  | _ :: _, [] => false
  end.

(** [s.includes(p)] *)
Fixpoint includes (s p : jsstring) : bool :=
  startsWith p s ||
  match s with
  | [] => false
  | _ :: r => includes r p
  end.

(** [s.replace(p, "")] for a string pattern [p]: the first occurrence of
    [p] is removed. *)
Fixpoint remove_first (p s : jsstring) : jsstring :=
  if startsWith p s then skipn (length p) s
  else match s with
       | [] => []
       | c :: r => c :: remove_first p r
       end.

(** [Array.prototype.join] on strings. *)
Fixpoint join (sep : jsstring) (l : list jsstring) : jsstring :=
  match l with
  | [] => []
  | [x] => x
  | x :: r => x ++ sep ++ join sep r
  end.

(** Canonicalisation of the [/i] flag (no [u] flag): the code unit is
    upper-cased, except that a code unit of 128 or more is never mapped
    into ASCII.  Against the ASCII patterns of the source only the ASCII
    part of the mapping matters, which is what is written here. *)
Definition canonicalize (c : N) : N :=
  if ((97 <=? c) && (c <=? 122))%N then (c - 32)%N else c.

(** A literal pattern matched at the start of [s] under [/i]. *)
Fixpoint startsWith_i (p s : jsstring) : bool :=
  match p, s with
  | [], _ => true
  | x :: p', y :: s' => N.eqb (canonicalize x) (canonicalize y) && startsWith_i p' s'
  | _ :: _, [] => false
  end.

Definition LF : jsstring := [10%N].
Definition DQ : jsstring := [34%N].

(** The lines of a multi-line literal, joined by line feeds. *)
Definition lines (l : list jsstring) : jsstring := join LF l.

(** *** Values produced by [JSON.parse] and [Response.json]

    A number literal is kept as the exact decimal [m * 10^e] it denotes
    (rounding to binary64 is not modelled).  An object keeps its members
    in source order, duplicates included; a property read takes the last
    member with the name, as the later definition overrides the earlier. *)
Inductive number : Type := Decimal (m e : Z).

Inductive json : Type :=
| JNull
| JBool (b : bool)
| JNumber (n : number)
| JString (s : jsstring)
| JArray (l : list json)
| JObject (members : list (jsstring * json)).

Fixpoint lookup_last (k : jsstring) (members : list (jsstring * json)) : option json :=
  match members with
  | [] => None
  | (k', v) :: r =>
      match lookup_last k r with
      | Some w => Some w
      | None => if jsstring_eqb k k' then Some v else None
      end
  end.

(** [v.k] on a value that is neither [null] nor [undefined], for a
    property name [k] that no prototype defines (every name read by the
    sources is one): [None] stands for [undefined]. *)
Definition getProperty (v : json) (k : jsstring) : option json :=
  match v with
  | JObject members => lookup_last k members
  | _ => None
  end.

(** [o?.k] *)
Definition optionalChain (o : option json) (k : jsstring) : option json :=
  match o with
  | None | Some JNull => None
  | Some v => getProperty v k
  end.

Definition isArray (v : json) : bool :=
  match v with JArray _ => true | _ => false end.

(** [v[0]] on a value that is not [null]. *)
Definition index0 (v : json) : option json :=
  match v with
  | JArray l => nth_error l 0
  | _ => None
  end.

(** ToBoolean, [None] standing for [undefined]. *)
Definition ToBoolean (o : option json) : bool :=
  match o with
  | None | Some JNull => false
  | Some (JBool b) => b
  | Some (JNumber (Decimal m _)) => negb (Z.eqb m 0)
  | Some (JString s) => truthy_string s
  | Some (JArray _) | Some (JObject _) => true
  end.

(** *** A reader for JSON text

    [JSON.parse] belongs to the runtime, not to the repository.  The
    orchestration code below takes the parser as a parameter; this reader
    of the JSON grammar is the instance used to run it on concrete
    texts. *)
Definition isJsonSpace (c : N) : bool :=
  ((c =? 32) || (c =? 9) || (c =? 10) || (c =? 13))%N.

Fixpoint skipSpace (s : jsstring) : jsstring :=
  match s with
  | [] => []
  | c :: r => if isJsonSpace c then skipSpace r else s
  end.

Definition isDigit (c : N) : bool := ((48 <=? c) && (c <=? 57))%N.

Definition hexValue (c : N) : option N :=
  if isDigit c then Some (c - 48)%N
  else if ((97 <=? c) && (c <=? 102))%N then Some (c - 87)%N
  else if ((65 <=? c) && (c <=? 70))%N then Some (c - 55)%N
  else None.

Definition hex4 (a b c d : N) : option N :=
  match hexValue a, hexValue b, hexValue c, hexValue d with
  | Some x, Some y, Some z, Some w => Some (((x * 16 + y) * 16 + z) * 16 + w)%N
  | _, _, _, _ => None
  end.

(** The one-letter escapes: quotation mark, reverse solidus, solidus,
    [b], [f], [n], [r] and [t]. *)
Definition simpleEscape (c : N) : option N :=
  if (c =? 34)%N then Some 34%N
  else if (c =? 92)%N then Some 92%N
  else if (c =? 47)%N then Some 47%N
  else if (c =? 98)%N then Some 8%N
  else if (c =? 102)%N then Some 12%N
  else if (c =? 110)%N then Some 10%N
  else if (c =? 114)%N then Some 13%N
  else if (c =? 116)%N then Some 9%N
  else None.

(** The characters of a string literal after its opening quote; [acc]
    holds the code units read so far, last first. *)
Fixpoint readStringBody (s acc : jsstring) : option (jsstring * jsstring) :=
  match s with
  | [] => None
  | c :: r =>
      if (c =? 34)%N then Some (rev acc, r)
      else if (c =? 92)%N then
        match r with
        | [] => None
        | e :: r1 =>
            if (e =? 117)%N then
              match r1 with
              | h1 :: h2 :: h3 :: h4 :: r2 =>
                  match hex4 h1 h2 h3 h4 with
                  | Some u => readStringBody r2 (u :: acc)
                  | None => None
                  end
              | _ => None
              end
            else
              match simpleEscape e with
              | Some u => readStringBody r1 (u :: acc)
              | None => None
              end
        end
      else if (c <? 32)%N then None
      else readStringBody r (c :: acc)
  end.

Fixpoint spanDigits (s : jsstring) : jsstring * jsstring :=
  match s with
  | c :: r => if isDigit c then let (d, t) := spanDigits r in (c :: d, t) else ([], s)
  | [] => ([], [])
  end.

Definition digitsValue (d : jsstring) : Z :=
  fold_left (fun a c => (a * 10 + Z.of_N (c - 48))%Z) d 0%Z.

(** [-? int frac? exp?], with [int] a lone [0] or a digit string that does
    not start with [0]. *)
Definition readNumber (s : jsstring) : option (json * jsstring) :=
  let (neg, s1) := match s with
                   | c :: r => if (c =? 45)%N then (true, r) else (false, s)
                   | [] => (false, s)
                   end in
  let intPart :=
    match s1 with
    | c :: r => if (c =? 48)%N then Some ([c], r)
                else if isDigit c then Some (spanDigits s1)
                else None
    | [] => None
    end in
  match intPart with
  | None => None
  | Some (ds, s2) =>
      let fracPart :=
        match s2 with
        | c :: r => if (c =? 46)%N
                    then match spanDigits r with
                         | ([], _) => None
                         | (fs, t) => Some (fs, t)
                         end
                    else Some ([], s2)
        | [] => Some ([], s2)
        end in
      match fracPart with
      | None => None
      | Some (fs, s3) =>
          let expPart :=
            match s3 with
            | c :: r =>
                if ((c =? 101) || (c =? 69))%N then
                  let (eneg, r1) := match r with
                                    | g :: r' => if (g =? 45)%N then (true, r')
                                                 else if (g =? 43)%N then (false, r')
                                                 else (false, r)
                                    | [] => (false, r)
                                    end in
                  match spanDigits r1 with
                  | ([], _) => None
                  | (es, t) => Some ((if eneg then - digitsValue es else digitsValue es)%Z, t)
                  end
                else Some (0%Z, s3)
            | [] => Some (0%Z, s3)
            end in
          match expPart with
          | None => None
          | Some (ex, s4) =>
              let m := digitsValue (ds ++ fs) in
              Some (JNumber (Decimal (if neg then - m else m) (ex - Z.of_nat (length fs))), s4)
          end
      end
  end.

Definition expectWord (w : jsstring) (v : json) (s : jsstring) : option (json * jsstring) :=
  if startsWith w s then Some (v, skipn (length w) s) else None.

Fixpoint readValue (fuel : nat) (s : jsstring) : option (json * jsstring) :=
  match fuel with
  | O => None
  | S fuel' =>
      match skipSpace s with
      | [] => None
      | c :: r =>
          if (c =? 34)%N then
            match readStringBody r [] with
            | Some (t, r') => Some (JString t, r')
            | None => None
            end
          else if (c =? 91)%N then
            match skipSpace r with
            | c2 :: r2 =>
                if (c2 =? 93)%N then Some (JArray [], r2)
                else match readElements fuel' r [] with
                     | Some (l, r') => Some (JArray l, r')
                     | None => None
                     end
            | [] => None
            end
          else if (c =? 123)%N then
            match skipSpace r with
            | c2 :: r2 =>
                if (c2 =? 125)%N then Some (JObject [], r2)
                else match readMembers fuel' r [] with
                     | Some (l, r') => Some (JObject l, r')
                     | None => None
                     end
            | [] => None
            end
          else if (c =? 116)%N then expectWord (str "true") (JBool true) (c :: r)
          else if (c =? 102)%N then expectWord (str "false") (JBool false) (c :: r)
          else if (c =? 110)%N then expectWord (str "null") JNull (c :: r)
          else readNumber (c :: r)
      end
  end
with readElements (fuel : nat) (s : jsstring) (acc : list json)
  : option (list json * jsstring) :=
  match fuel with
  | O => None
  | S fuel' =>
      match readValue fuel' s with
      | None => None
      | Some (v, r) =>
          match skipSpace r with
          | c :: r' =>
              if (c =? 44)%N then readElements fuel' r' (v :: acc)
              else if (c =? 93)%N then Some (rev (v :: acc), r')
              else None
          | [] => None
          end
      end
  end
with readMembers (fuel : nat) (s : jsstring) (acc : list (jsstring * json))
  : option (list (jsstring * json) * jsstring) :=
  match fuel with
  | O => None
  | S fuel' =>
      match skipSpace s with
      | c :: r =>
          if (c =? 34)%N then
            match readStringBody r [] with
            | None => None
            | Some (k, r1) =>
                match skipSpace r1 with
                | c1 :: r2 =>
                    if (c1 =? 58)%N then
                      match readValue fuel' r2 with
                      | None => None
                      | Some (v, r3) =>
                          match skipSpace r3 with
                          | c3 :: r4 =>
                              if (c3 =? 44)%N then readMembers fuel' r4 ((k, v) :: acc)
                              else if (c3 =? 125)%N then Some (rev ((k, v) :: acc), r4)
                              else None
                          | [] => None
                          end
                      end
                    else None
                | [] => None
                end
            end
          else None
      | [] => None
      end
  end.

(** The whole text must be one value, spaces aside; [None] is the
    [SyntaxError].  The readers are given twice the length of the text as
    fuel (each of their calls reads a code unit before the next one). *)
Definition parseText (s : jsstring) : option json :=
  match readValue (2 * length s + 2) s with
  | Some (v, r) => match skipSpace r with [] => Some v | _ :: _ => None end
  | None => None
  end.

End JS.

(** ** Outcomes of fallible calls *)
Inductive Error : Type :=
| NetworkError                 (* [fetch] rejected *)
| SyntaxError                  (* a body or a text that is not JSON *)
| TypeError                    (* a member read on [null], a call of a non-function *)
| ApiError (status : N).       (* [new Error] of line 41 *)

Inductive Result (A : Type) : Type :=
| Ok (a : A)
| Throw (e : Error).

Arguments Ok {A} a.
Arguments Throw {A} e.

(** ** [src/services/HuggingFaceService.ts] *)
Module HuggingFaceService.
Import JS.

Definition HF_API_URL : jsstring :=
  str "https://api-inference.huggingface.co/models/mistralai/Mixtral-8x7B-Instruct-v0.1".

Inductive Role : Type := user | model.

Definition Role_eqb (a b : Role) : bool :=
  match a, b with
  | user, user | model, model => true
  | _, _ => false
  end.

Record MessageInput : Type := { role : Role; content : jsstring }.

(** [Array.prototype.pop] as an expression: the last element, or
    [undefined]. *)
Fixpoint pop {A : Type} (l : list A) : option A :=
  match l with
  | [] => None
  | [x] => Some x
  | _ :: r => pop r
  end.

(** [x?.content] converted to a string by [+]. *)
Definition contentText (o : option MessageInput) : jsstring :=
  match o with
  | Some m => content m
  | None => str "undefined"
  end.

(** The prompt of lines 15-20. *)
Definition buildPrompt (messages : list MessageInput) : jsstring :=
  join LF
    [ str "You are a supportive and empathetic mental health chatbot. Respond naturally and briefly to the user's message.";
      [];
      str "User: " ++ contentText (pop (filter (fun msg => Role_eqb (role msg) user) messages));
      str "Assistant:" ].

(** The content of the last turn with the user role, if there is one:
    the list is read front to back and the latest user turn is kept. *)
Definition lastUserContent (messages : list MessageInput) : option jsstring :=
  fold_left
    (fun found msg => match role msg with
                      | user => Some (content msg)
                      | model => found
                      end)
    messages None.

(** What [fetch] is called with; [body] is the value given to
    [JSON.stringify]. *)
Record Request : Type := {
  url : jsstring;
  method : jsstring;
  headers : list (jsstring * jsstring);
  body : json
}.

(** What [fetch] answers with: [json_body] is the outcome of
    [response.json()], [None] when it rejects. *)
Record Response : Type := {
  ok : bool;
  status : N;
  json_body : option json
}.

Inductive FetchOutcome : Type :=
| Rejected
| Resolved (response : Response).

(** The regular expression of line 65,
    [/^(Assistant:|Let me respond naturally to that\.?)/i], replaced by the
    empty string: alternatives in order, the full stop taken when it is
    there. *)
Definition stripArtifact (s : jsstring) : jsstring :=
  let label := str "Assistant:" in
  let opener := str "Let me respond naturally to that" in
  if startsWith_i label s then skipn (length label) s
  else if startsWith_i opener s then
    match skipn (length opener) s with
    | c :: r => if (c =? 46)%N then r else c :: r
    | [] => []
    end
  else s.

(** Lines 57-70, on the text taken from the payload. *)
Definition cleanGeneratedText (prompt generatedText : jsstring) : jsstring :=
  let generatedText :=
    if includes generatedText prompt
    then trim (remove_first prompt generatedText)
    else generatedText in
  let generatedText := trim (stripArtifact generatedText) in
  if truthy_string generatedText then generatedText
  else str "I'm glad to hear from you! How can I help you today?".

(** Lines 44-70.  A truthy [generated_text] that is not a string has no
    [replace] method (and [includes] only if it is an array), so the
    clean-up throws a [TypeError]; so does [data.generated_text] on
    [null]. *)
Definition extractGeneratedText (prompt : jsstring) (data : json) : Result jsstring :=
  let cleaned (g : option json) :=
    match g with
    | Some (JString t) => Ok (cleanGeneratedText prompt t)
    | _ => Throw TypeError
    end in
  if isArray data && ToBoolean (optionalChain (index0 data) (str "generated_text"))
  then cleaned (optionalChain (index0 data) (str "generated_text"))
  else
    match data with
    | JNull => Throw TypeError
    | _ =>
        if ToBoolean (getProperty data (str "generated_text"))
        then cleaned (getProperty data (str "generated_text"))
        else Ok (str "Sorry, I couldn't generate a response.")
    end.

Section Env.

(** [import.meta.env.VITE_HF_API_KEY], as the template of line 25 prints
    it. *)
Variable HF_API_KEY : jsstring.

(** Lines 22-36: the call of [fetch]. *)
Definition buildRequest (messages : list MessageInput) (systemPrompt : jsstring) : Request :=
  let prompt := buildPrompt messages in
  {| url := HF_API_URL;
     method := str "POST";
     headers := [ (str "Authorization", str "Bearer " ++ HF_API_KEY);
                  (str "Content-Type", str "application/json") ];
     body := JObject
               [ (str "inputs", JString prompt);
                 (str "parameters",
                  JObject [ (str "max_new_tokens", JNumber (Decimal 150 0));
                            (str "temperature", JNumber (Decimal 7 (-1)));
                            (str "return_full_text", JBool false) ]) ] |}.

End Env.

(** Lines 38-70: the function resumed with the outcome of [fetch]. *)
Definition resume (prompt : jsstring) (outcome : FetchOutcome) : Result jsstring :=
  match outcome with
  | Rejected => Throw NetworkError
  | Resolved response =>
      if negb (ok response) then
        match json_body response with
        | None => Throw SyntaxError
        | Some _ => Throw (ApiError (status response))
        end
      else
        match json_body response with
        | None => Throw SyntaxError
        | Some data => extractGeneratedText prompt data
        end
  end.

(** [generateContentFromHF(messages, systemPrompt)], the outcome of its
    [fetch] given: the request it sends and what it resolves or rejects
    to. *)
Definition generateContentFromHF (HF_API_KEY : jsstring)
    (messages : list MessageInput) (systemPrompt : jsstring)
    (outcome : FetchOutcome) : Request * Result jsstring :=
  (buildRequest HF_API_KEY messages systemPrompt,
   resume (buildPrompt messages) outcome).

End HuggingFaceService.

(** ** [src/context/ConversationContext.tsx] *)
Module ConversationContext.
Import JS.

(** Modelled from the spec: the declarations of [../types] are not among
    the sources; a sender is one of [user] and [bot] (section 3 of the
    spec, and the literals of lines 63, 83 and 96). *)
Inductive Sender : Type := user | bot.

Definition Sender_eqb (a b : Sender) : bool :=
  match a, b with
  | user, user | bot, bot => true
  | _, _ => false
  end.

(** Modelled from the spec: [Message] of [../types], one conversational
    turn with its identifier, content, sender and creation time. *)
Record Message : Type := {
  id : jsstring;
  content : jsstring;
  sender : Sender;
  timestamp : jsstring
}.

(** Modelled from the spec: [Report] of [../types], with the seven fields
    of the report schema of section 6. *)
Record Report : Type := {
  observedPatterns : list jsstring;
  tentativeConditions : list jsstring;
  moodScore : number;
  sentimentScore : number;
  keyQuotes : list jsstring;
  recommendations : list jsstring;
  analysisDate : jsstring
}.

(** The object a [Report] literal evaluates to. *)
Definition Report_object (r : Report) : json :=
  JObject
    [ (str "observedPatterns", JArray (map JString (observedPatterns r)));
      (str "tentativeConditions", JArray (map JString (tentativeConditions r)));
      (str "moodScore", JNumber (moodScore r));
      (str "sentimentScore", JNumber (sentimentScore r));
      (str "keyQuotes", JArray (map JString (keyQuotes r)));
      (str "recommendations", JArray (map JString (recommendations r)));
      (str "analysisDate", JString (analysisDate r)) ].

(** *** State of the provider (lines 42-48)

    [report] holds whatever [setReport] was given, [JNull] being [null];
    [error] is [None] for [null]. *)
Record State : Type := {
  messages : list Message;
  isLoading : bool;
  report : json;
  isReportGenerating : bool;
  conversationStarted : bool;
  error : option jsstring;
  messagesRef : list Message
}.

Definition initialState : State :=
  {| messages := [];
     isLoading := false;
     report := JNull;
     isReportGenerating := false;
     conversationStarted := false;
     error := None;
     messagesRef := [] |}.

(** Computations over the provider state. *)
Definition M (A : Type) : Type := State -> A * State.

Definition ret {A : Type} (a : A) : M A := fun st => (a, st).

Definition bind {A B : Type} (c : M A) (k : A -> M B) : M B :=
  fun st => let (a, st') := c st in k a st'.

Declare Scope provider_scope.
Delimit Scope provider_scope with provider.
Notation "x <- c ;; k" := (bind c (fun x => k))
  (at level 61, c at next level, right associativity) : provider_scope.
Notation "c ;; k" := (bind c (fun _ => k))
  (at level 61, right associativity) : provider_scope.
Local Open Scope provider_scope.

Definition setMessages (updater : list Message -> list Message) : M unit :=
  fun st =>
    (tt, {| messages := updater (messages st);
            isLoading := isLoading st;
            report := report st;
            isReportGenerating := isReportGenerating st;
            conversationStarted := conversationStarted st;
            error := error st;
            messagesRef := messagesRef st |}).

Definition setIsLoading (b : bool) : M unit :=
  fun st =>
    (tt, {| messages := messages st;
            isLoading := b;
            report := report st;
            isReportGenerating := isReportGenerating st;
            conversationStarted := conversationStarted st;
            error := error st;
            messagesRef := messagesRef st |}).

Definition setReport (v : json) : M unit :=
  fun st =>
    (tt, {| messages := messages st;
            isLoading := isLoading st;
            report := v;
            isReportGenerating := isReportGenerating st;
            conversationStarted := conversationStarted st;
            error := error st;
            messagesRef := messagesRef st |}).

Definition setIsReportGenerating (b : bool) : M unit :=
  fun st =>
    (tt, {| messages := messages st;
            isLoading := isLoading st;
            report := report st;
            isReportGenerating := b;
            conversationStarted := conversationStarted st;
            error := error st;
            messagesRef := messagesRef st |}).

Definition setConversationStarted (b : bool) : M unit :=
  fun st =>
    (tt, {| messages := messages st;
            isLoading := isLoading st;
            report := report st;
            isReportGenerating := isReportGenerating st;
            conversationStarted := b;
            error := error st;
            messagesRef := messagesRef st |}).

Definition setError (e : option jsstring) : M unit :=
  fun st =>
    (tt, {| messages := messages st;
            isLoading := isLoading st;
            report := report st;
            isReportGenerating := isReportGenerating st;
            conversationStarted := conversationStarted st;
            error := e;
            messagesRef := messagesRef st |}).

(** [messagesRef.current = v] *)
Definition writeMessagesRef (v : list Message) : M unit :=
  fun st =>
    (tt, {| messages := messages st;
            isLoading := isLoading st;
            report := report st;
            isReportGenerating := isReportGenerating st;
            conversationStarted := conversationStarted st;
            error := error st;
            messagesRef := v |}).

(** [messagesRef.current] *)
Definition readMessagesRef : M (list Message) := fun st => (messagesRef st, st).

Definition readMessages : M (list Message) := fun st => (messages st, st).

Definition readConversationStarted : M bool := fun st => (conversationStarted st, st).

(** *** The effects (lines 50-69) *)

(** Lines 51-53, run after a commit. *)
Definition syncEffect : M unit :=
  current <- readMessages ;;
  writeMessagesRef current.

(** Lines 56-69, run after a commit; the result tells whether a timeout
    was set.  The flag the effect tests is the one of the render that is
    committed; a commit being one render whose effects run once, that is
    the flag of the state.  (A second run of the mount effects for the
    same render, as a strict development mount does, is not among the
    events.) *)
Definition greetingEffect : M bool :=
  started <- readConversationStarted ;;
  if negb started then
    setConversationStarted true ;;
    ret true
  else ret false.

(** Lines 60-66: the callback of the timeout. *)
Definition greetingTimeout (uuid now : jsstring) : M unit :=
  let initialMessage :=
    {| id := uuid;
       content := str "Hi there! How are you feeling today?";
       sender := bot;
       timestamp := now |} in
  setMessages (fun _ => [initialMessage]).

(** Lines 71-73. *)
Definition clearError : M unit := setError None.

(** *** [sendMessage] (lines 75-137) *)

(** The mapping of lines 95-98 and 145-148. *)
Definition toTurn (msg : Message) : HuggingFaceService.MessageInput :=
  {| HuggingFaceService.role :=
       if Sender_eqb (sender msg) user
       then HuggingFaceService.user
       else HuggingFaceService.model;
     HuggingFaceService.content := content msg |}.

Definition chatSystemPrompt : jsstring :=
  str "You are a supportive and empathetic mental health chatbot. Your responses should be natural, brief (2-3 sentences), and focused on the user's immediate message. Offer relevant suggestions when appropriate. Never repeat the prompt or conversation format in your response.".

(** A call of [generateContentFromHF]: its two arguments. *)
Record Call : Type := {
  turns : list HuggingFaceService.MessageInput;
  systemPrompt : jsstring
}.

(** Lines 76-107: up to the [await].  [None] when the function returned
    at line 76, else the call that was issued. *)
Definition sendMessage (text uuid now : jsstring) : M (option Call) :=
  if negb (truthy_string (trim text)) then ret None
  else
    let userMessage :=
      {| id := uuid; content := text; sender := user; timestamp := now |} in
    setMessages (fun prevMessages => prevMessages ++ [userMessage]) ;;
    setIsLoading true ;;
    setError None ;;
    current <- readMessagesRef ;;
    let allMessages := current ++ [userMessage] in
    let conversationHistory := map toTurn allMessages in
    ret (Some {| turns := conversationHistory; systemPrompt := chatSystemPrompt |}).

(** Lines 109-136: resumed with what the awaited call resolved or
    rejected to. *)
Definition sendMessage_resumed (awaited : Result jsstring) (uuid now : jsstring) : M unit :=
  match awaited with
  | Ok response =>
      if truthy_string response then
        let botMessage :=
          {| id := uuid; content := response; sender := bot; timestamp := now |} in
        setMessages (fun prevMessages => prevMessages ++ [botMessage])
      else ret tt
  | Throw _ =>
      setError (Some (str "Failed to get response. Please try again.")) ;;
      let errorMessage :=
        {| id := uuid;
           content := str "I'm sorry, I'm having trouble responding right now. Could you try again?";
           sender := bot;
           timestamp := now |} in
      setMessages (fun prevMessages => prevMessages ++ [errorMessage])
  end ;;
  setIsLoading false.

(** *** [generateReport] (lines 139-213) *)

Definition reportPrompt : jsstring :=
  lines
    [ str "Based on the conversation history, generate a comprehensive mental health assessment report. Include:";
      [];
      str "1. Observed behavioral patterns (list 3-5 key observations)";
      str "2. Potential mental health conditions that may be present (if any)";
      str "3. A mood score from 1-10 (10 being excellent mental health)";
      str "4. A sentiment score from 1-10 (10 being very positive)";
      str "5. 2-3 key quotes from the user that were significant";
      str "6. 1-2 recommended therapy modules or approaches that might be beneficial";
      [];
      str "Format your response as a valid JSON object with the following structure:";
      str "{";
      str "  " ++ DQ ++ str "observedPatterns" ++ DQ ++ str ": [" ++ DQ ++ str "pattern1" ++ DQ ++ str ", " ++ DQ ++ str "pattern2" ++ DQ ++ str ", ...],";
      str "  " ++ DQ ++ str "tentativeConditions" ++ DQ ++ str ": [" ++ DQ ++ str "condition1" ++ DQ ++ str ", " ++ DQ ++ str "condition2" ++ DQ ++ str ", ...],";
      str "  " ++ DQ ++ str "moodScore" ++ DQ ++ str ": number,";
      str "  " ++ DQ ++ str "sentimentScore" ++ DQ ++ str ": number,";
      str "  " ++ DQ ++ str "keyQuotes" ++ DQ ++ str ": [" ++ DQ ++ str "quote1" ++ DQ ++ str ", " ++ DQ ++ str "quote2" ++ DQ ++ str ", ...],";
      str "  " ++ DQ ++ str "recommendations" ++ DQ ++ str ": [" ++ DQ ++ str "recommendation1" ++ DQ ++ str ", " ++ DQ ++ str "recommendation2" ++ DQ ++ str "],";
      str "  " ++ DQ ++ str "analysisDate" ++ DQ ++ str ": " ++ DQ ++ str "current date in ISO format" ++ DQ;
      str "}";
      [];
      str "IMPORTANT: Be compassionate but honest in your assessment. If there are no signs of mental health conditions, state that the user appears to be in good mental health. Don't invent issues that aren't supported by the conversation." ].

(** The object literal of lines 187-195 and 201-209. *)
Definition degradedReport (now : jsstring) : Report :=
  {| observedPatterns := [str "Error generating comprehensive report"];
     tentativeConditions := [];
     moodScore := Decimal 5 0;
     sentimentScore := Decimal 5 0;
     keyQuotes := [];
     recommendations := [str "Consider a general wellness check-in"];
     analysisDate := now |}.

(** Lines 140-177: up to the [await]. *)
Definition generateReport : M Call :=
  setIsReportGenerating true ;;
  setError None ;;
  current <- readMessagesRef ;;
  let conversationHistory := map toTurn current in
  ret {| turns := conversationHistory; systemPrompt := reportPrompt |}.

Section Runtime.

(** [JSON.parse], [None] when it throws. *)
Variable JSON_parse : jsstring -> option json.

(** Lines 179-212: resumed with what the awaited call resolved or
    rejected to; [now] is the clock reading of the fallback branches. *)
Definition generateReport_resumed (awaited : Result jsstring) (now : jsstring) : M unit :=
  match awaited with
  | Ok reportJson =>
      if truthy_string reportJson then
        match JSON_parse reportJson with
        | Some reportData => setReport reportData
        | None =>
            setError (Some (str "Failed to generate a valid report. Please try again.")) ;;
            setReport (Report_object (degradedReport now))
        end
      else ret tt
  | Throw _ =>
      setError (Some (str "Failed to generate report. Please try again.")) ;;
      setReport (Report_object (degradedReport now))
  end ;;
  setIsReportGenerating false.

(** *** The provider in its environment

    The state together with what is outstanding: the timeouts that were
    set and the calls that were issued and have not settled.  [sent] logs
    the requests given to [fetch]. *)
Variable HF_API_KEY : jsstring.

Inductive CallKind : Type := ChatTurn | ReportSynthesis.

Record InFlight : Type := { kind : CallKind; call : Call }.

Record World : Type := {
  state : State;
  timeouts : nat;
  inflight : list InFlight;
  sent : list HuggingFaceService.Request
}.

Definition initialWorld : World :=
  {| state := initialState; timeouts := 0; inflight := []; sent := [] |}.

Inductive Event : Type :=
| Commit                                   (* a render is committed and the effects run *)
| GreetingTimeout (uuid now : jsstring)    (* the callback of line 59 fires *)
| ClearError
| SendMessage (text uuid now : jsstring)
| ChatSettled (i : nat) (outcome : HuggingFaceService.FetchOutcome) (uuid now : jsstring)
| GenerateReport
| ReportSettled (i : nat) (outcome : HuggingFaceService.FetchOutcome) (now : jsstring).

Fixpoint removeNth {A : Type} (i : nat) (l : list A) : list A :=
  match i, l with
  | _, [] => []
  | O, _ :: r => r
  | S j, x :: r => x :: removeNth j r
  end.

Definition issue (k : CallKind) (c : Call) (st : State) (w : World) : World :=
  {| state := st;
     timeouts := timeouts w;
     inflight := inflight w ++ [{| kind := k; call := c |}];
     sent := sent w ++ [HuggingFaceService.buildRequest HF_API_KEY (turns c) (systemPrompt c)] |}.

Definition withState (st : State) (w : World) : World :=
  {| state := st; timeouts := timeouts w; inflight := inflight w; sent := sent w |}.

(** What the awaited [generateContentFromHF] settles to, the outcome of
    its [fetch] given. *)
Definition settled (c : Call) (outcome : HuggingFaceService.FetchOutcome) : Result jsstring :=
  snd (HuggingFaceService.generateContentFromHF HF_API_KEY (turns c) (systemPrompt c) outcome).

(** One event; an event that cannot happen (no timeout set, no such call
    in flight) leaves the world as it is. *)
Definition step (w : World) (ev : Event) : World :=
  match ev with
  | Commit =>
      let (_, st1) := syncEffect (state w) in
      let (armed, st2) := greetingEffect st1 in
      {| state := st2;
         timeouts := if armed then S (timeouts w) else timeouts w;
         inflight := inflight w;
         sent := sent w |}
  | GreetingTimeout uuid now =>
      match timeouts w with
      | O => w
      | S n =>
          {| state := snd (greetingTimeout uuid now (state w));
             timeouts := n;
             inflight := inflight w;
             sent := sent w |}
      end
  | ClearError => withState (snd (clearError (state w))) w
  | SendMessage text uuid now =>
      match sendMessage text uuid now (state w) with
      | (None, st) => withState st w
      | (Some c, st) => issue ChatTurn c st w
      end
  | ChatSettled i outcome uuid now =>
      match nth_error (inflight w) i with
      | Some {| kind := ChatTurn; call := c |} =>
          {| state := snd (sendMessage_resumed (settled c outcome) uuid now (state w));
             timeouts := timeouts w;
             inflight := removeNth i (inflight w);
             sent := sent w |}
      | _ => w
      end
  | GenerateReport =>
      let (c, st) := generateReport (state w) in
      issue ReportSynthesis c st w
  | ReportSettled i outcome now =>
      match nth_error (inflight w) i with
      | Some {| kind := ReportSynthesis; call := c |} =>
          {| state := snd (generateReport_resumed (settled c outcome) now (state w));
             timeouts := timeouts w;
             inflight := removeNth i (inflight w);
             sent := sent w |}
      | _ => w
      end
  end.

Definition run (w : World) (evs : list Event) : World := fold_left step evs w.

End Runtime.

(** *** [downloadReport] (lines 215-256) *)
Section Exporter.

(** [new Date(s).toLocaleString()] and the conversion of a Number to a
    string belong to the runtime (and the former to its locale). *)
Variable toLocaleString : jsstring -> jsstring.
Variable numberToString : number -> jsstring.

Definition bulleted (items : list jsstring) : jsstring :=
  join LF (map (fun item => str "- " ++ item) items).

Definition quoted (items : list jsstring) : jsstring :=
  join LF (map (fun quote => str "- " ++ DQ ++ quote ++ DQ) items).

(** The substitution of lines 229-235. *)
Definition conditionsSection (report : Report) : jsstring :=
  if (0 <? length (tentativeConditions report))%nat
  then LF ++ str "Potential Conditions:" ++ LF ++ bulleted (tentativeConditions report)
  else [].

(** The template of lines 219-242, before [trim]. *)
Definition reportTemplate (report : Report) : jsstring :=
  LF ++ str "Mental Health Assessment Report" ++ LF
  ++ str "Generated on: " ++ toLocaleString (analysisDate report) ++ LF
  ++ LF
  ++ str "Mood Score: " ++ numberToString (moodScore report) ++ str "/10" ++ LF
  ++ str "Sentiment Score: " ++ numberToString (sentimentScore report) ++ str "/10" ++ LF
  ++ LF
  ++ str "Observed Patterns:" ++ LF
  ++ bulleted (observedPatterns report) ++ LF
  ++ LF
  ++ conditionsSection report ++ LF
  ++ LF
  ++ str "Key Quotes:" ++ LF
  ++ quoted (keyQuotes report) ++ LF
  ++ LF
  ++ str "Recommendations:" ++ LF
  ++ bulleted (recommendations report) ++ LF
  ++ str "    ".

Definition reportContent (report : Report) : jsstring :=
  trim (reportTemplate report).

(** [s.split("T")[0]] *)
Fixpoint beforeT (s : jsstring) : jsstring :=
  match s with
  | [] => []
  | c :: r => if (c =? 84)%N then [] else c :: beforeT r
  end.

(** The file handed to the browser: its name and its content; nothing
    when there is no report.  [nowIso] is [new Date().toISOString()]. *)
Definition downloadReport (report : option Report) (nowIso : jsstring)
  : option (jsstring * jsstring) :=
  match report with
  | None => None
  | Some r =>
      Some (str "mental-health-report-" ++ beforeT nowIso ++ str ".txt",
            reportContent r)
  end.

(** The document as the layout is described: header line, generation
    time, the two scores, the Observed Patterns section, then [section]
    where the Potential Conditions section goes, the Key Quotes section
    and the Recommendations section, nothing before the header and no
    white space after the last line.  The export is compared with it. *)
Definition exportLayout (report : Report) (section : jsstring) : jsstring :=
  str "Mental Health Assessment Report" ++ LF
  ++ str "Generated on: " ++ toLocaleString (analysisDate report) ++ LF
  ++ LF
  ++ str "Mood Score: " ++ numberToString (moodScore report) ++ str "/10" ++ LF
  ++ str "Sentiment Score: " ++ numberToString (sentimentScore report) ++ str "/10" ++ LF
  ++ LF
  ++ str "Observed Patterns:" ++ LF
  ++ bulleted (observedPatterns report) ++ LF
  ++ LF
  ++ section ++ LF
  ++ LF
  ++ str "Key Quotes:" ++ LF
  ++ quoted (keyQuotes report) ++ LF
  ++ LF
  ++ str "Recommendations:"
  ++ trimEnd (LF ++ bulleted (recommendations report) ++ LF ++ str "    ").

End Exporter.

(** *** Vocabulary of the properties *)

(** The role a sender is to be mapped to: the user to the user role, the
    bot to the model role. *)
Definition roleOf (s : Sender) : HuggingFaceService.Role :=
  match s with
  | user => HuggingFaceService.user
  | bot => HuggingFaceService.model
  end.

(** A number that is an integer between 1 and 10. *)
Definition inScoreRange (n : number) : bool :=
  match n with
  | Decimal m e =>
      if (0 <=? e)%Z
      then ((1 <=? m * 10 ^ e) && (m * 10 ^ e <=? 10))%Z
      else ((m mod 10 ^ (- e) =? 0) && (1 <=? m / 10 ^ (- e))
            && (m / 10 ^ (- e) <=? 10))%Z
  end.

(** The member [k] of a stored report is such a number. *)
Definition scoreInRange (v : json) (k : jsstring) : bool :=
  match getProperty v k with
  | Some (JNumber n) => inScoreRange n
  | _ => false
  end.

(** A report generation failed: the awaited call rejected, or it resolved
    to a text that [JSON.parse] refuses. *)
Definition generationFailed (JSON_parse : jsstring -> option json)
    (awaited : Result jsstring) : Prop :=
  match awaited with
  | Throw _ => True
  | Ok reportJson => truthy_string reportJson = true /\ JSON_parse reportJson = None
  end.

End ConversationContext.

(** ** [src/services/GeminiService.ts] *)
Module GeminiService.
Import JS.

(** The interface [MessageInput] of lines 3-6 is the one of the other
    adapter, field for field. *)
Definition MessageInput : Type := HuggingFaceService.MessageInput.

Definition API_URL : jsstring :=
  str "https://generativelanguage.googleapis.com/v1beta/models/gemini-pro:generateContent".

(** [v[0]] on a value that is neither [null] nor [undefined]: an element
    of an array, the member named [0] of an object, the first code unit
    of a string. *)
Definition elementAt0 (v : json) : option json :=
  match v with
  | JArray l => nth_error l 0
  | JObject members => lookup_last (str "0") members
  | JString (c :: _) => Some (JString [c])
  | _ => None
  end.

(** [o?.[0]] *)
Definition optionalIndex0 (o : option json) : option json :=
  match o with
  | None | Some JNull => None
  | Some v => elementAt0 v
  end.

(** [data?.candidates?.[0]?.content?.parts?.[0]?.text] (line 114). *)
Definition candidateText (data : json) : option json :=
  optionalChain
    (optionalIndex0
       (optionalChain
          (optionalChain
             (optionalIndex0 (optionalChain (Some data) (str "candidates")))
             (str "content"))
          (str "parts")))
    (str "text").

(** Lines 28-31: one turn in the format of the endpoint. *)
Definition formatMessage (msg : MessageInput) : json :=
  JObject
    [ (str "role",
       JString (if HuggingFaceService.Role_eqb (HuggingFaceService.role msg)
                     HuggingFaceService.model
                then str "model" else str "user"));
      (str "parts",
       JArray [JObject [(str "text", JString (HuggingFaceService.content msg))]]) ].

(** Lines 34-48. *)
Definition contentsWithSystem (messages : list MessageInput) (systemPrompt : jsstring)
  : list json :=
  [ JObject
      [ (str "role", JString (str "user"));
        (str "parts", JArray [JObject [(str "text", JString systemPrompt)]]) ];
    JObject
      [ (str "role", JString (str "model"));
        (str "parts",
         JArray
           [JObject
              [(str "text",
                JString
                  (str "I understand. I'll be a compassionate mental health support friend, responding naturally and avoiding repetitive questions."))]]) ] ]
  ++ map formatMessage messages.

Definition safetySetting (category : jsstring) : json :=
  JObject
    [ (str "category", JString category);
      (str "threshold", JString (str "BLOCK_MEDIUM_AND_ABOVE")) ].

(** Lines 50-77. *)
Definition payload (messages : list MessageInput) (systemPrompt : jsstring)
    (isJson : bool) : json :=
  JObject
    [ (str "contents", JArray (contentsWithSystem messages systemPrompt));
      (str "generationConfig",
       JObject
         [ (str "temperature",
            JNumber (if isJson then Decimal 1 (-1) else Decimal 7 (-1)));
           (str "topP", JNumber (Decimal 95 (-2)));
           (str "topK", JNumber (Decimal 40 0));
           (str "maxOutputTokens",
            JNumber (if isJson then Decimal 1024 0 else Decimal 512 0));
           (str "candidateCount", JNumber (Decimal 1 0)) ]);
      (str "safetySettings",
       JArray
         [ safetySetting (str "HARM_CATEGORY_HARASSMENT");
           safetySetting (str "HARM_CATEGORY_HATE_SPEECH");
           safetySetting (str "HARM_CATEGORY_SEXUALLY_EXPLICIT");
           safetySetting (str "HARM_CATEGORY_DANGEROUS_CONTENT") ]) ].

Section Env.

(** [import.meta.env.VITE_GEMINI_API_KEY], [None] when it is not set. *)
Variable VITE_GEMINI_API_KEY : option jsstring.

(** [String.prototype.toLowerCase] and [JSON.stringify] belong to the
    runtime. *)
Variable toLowerCase : jsstring -> jsstring.
Variable JSON_stringify : json -> jsstring.

(** Line 15. *)
Definition API_KEY : jsstring :=
  match VITE_GEMINI_API_KEY with
  | Some k => if truthy_string k then k else str "GEMINI_API_KEY"
  | None => str "GEMINI_API_KEY"
  end.

(** Lines 81-87: the call of [fetch]. *)
Definition buildRequest (messages : list MessageInput) (systemPrompt : jsstring)
    (isJson : bool) : HuggingFaceService.Request :=
  {| HuggingFaceService.url := API_URL ++ str "?key=" ++ API_KEY;
     HuggingFaceService.method := str "POST";
     HuggingFaceService.headers := [ (str "Content-Type", str "application/json") ];
     HuggingFaceService.body := payload messages systemPrompt isJson |}.

(** Lines 160-161: the content of the last user turn, the empty string
    when there is none (or when it is empty). *)
Definition lastUserMessage (messages : list MessageInput) : jsstring :=
  match HuggingFaceService.pop
          (filter (fun msg => HuggingFaceService.Role_eqb
                                (HuggingFaceService.role msg)
                                HuggingFaceService.user)
                  messages) with
  | Some msg => HuggingFaceService.content msg
  | None => []
  end.

(** The object of lines 164-183; [now] is [new Date().toISOString()]. *)
Definition simulatedReport (messages : list MessageInput) (now : jsstring)
  : ConversationContext.Report :=
  {| ConversationContext.observedPatterns :=
       [ str "Shows signs of moderate stress related to daily activities";
         str "Expresses desire for more social connection";
         str "Displays self-awareness about emotional states" ];
     ConversationContext.tentativeConditions :=
       [ str "Mild anxiety"; str "Social isolation" ];
     ConversationContext.moodScore := Decimal 6 0;
     ConversationContext.sentimentScore := Decimal 5 0;
     ConversationContext.keyQuotes :=
       [ if (10 <? length (lastUserMessage messages))%nat
         then lastUserMessage messages
         else str "I've been feeling a bit overwhelmed lately" ];
     ConversationContext.recommendations :=
       [ str "Guided meditation sessions for stress reduction";
         str "Social connection exercises" ];
     ConversationContext.analysisDate := now |}.

(** Lines 187-215: the canned reply chosen from the last user message. *)
Definition simulatedReply (messages : list MessageInput) : jsstring :=
  let lowerMessage := toLowerCase (lastUserMessage messages) in
  if includes lowerMessage (str "book")
     || includes lowerMessage (str "reading")
     || includes lowerMessage (str "club")
  then str "That's a great idea! Book clubs can be wonderful places to meet new people. Have you checked your local library for book club recommendations?"
  else if includes lowerMessage (str "talk")
          || includes lowerMessage (str "someone")
          || includes lowerMessage (str "lonely")
          || includes lowerMessage (str "alone")
  then str "I understand the need for connection. Have you considered joining any hobby groups or volunteering? What activities do you enjoy?"
  else if includes lowerMessage (str "stress")
          || includes lowerMessage (str "anxious")
          || includes lowerMessage (str "worried")
          || includes lowerMessage (str "overwhelm")
  then str "I hear that you're feeling stressed. Deep breathing exercises can really help. What usually helps you feel more calm?"
  else str "I understand. Would you like to tell me more about what's been on your mind lately? I'm here to listen.".

(** Lines 156-216. *)
Definition simulateFallbackResponse (messages : list MessageInput) (isJson : bool)
    (now : jsstring) : jsstring :=
  if isJson
  then JSON_stringify (ConversationContext.Report_object (simulatedReport messages now))
  else simulatedReply messages.

(** Lines 92-120, inside the [try]: resumed with the outcome of [fetch].
    A response that is not [ok] throws whatever its body is. *)
Definition resume (messages : list MessageInput) (isJson : bool) (now : jsstring)
    (outcome : HuggingFaceService.FetchOutcome) : Result json :=
  match outcome with
  | HuggingFaceService.Rejected => Throw NetworkError
  | HuggingFaceService.Resolved response =>
      if negb (HuggingFaceService.ok response)
      then Throw (ApiError (HuggingFaceService.status response))
      else
        match HuggingFaceService.json_body response with
        | None => Throw SyntaxError
        | Some data =>
            if ToBoolean (candidateText data)
            then match candidateText data with
                 | Some text => Ok text
                 | None => Throw TypeError
                 end
            else Ok (JString (simulateFallbackResponse messages isJson now))
        end
  end.

(** [generateContentFromGemini(messages, systemPrompt, isJson)], the
    outcome of its [fetch] given: the request it sends and the value it
    resolves to; the [catch] of lines 121-125 turns every exception into
    the simulated response. *)
Definition generateContentFromGemini (messages : list MessageInput)
    (systemPrompt : jsstring) (isJson : bool) (now : jsstring)
    (outcome : HuggingFaceService.FetchOutcome)
  : HuggingFaceService.Request * json :=
  (buildRequest messages systemPrompt isJson,
   match resume messages isJson now outcome with
   | Ok text => text
   | Throw _ => JString (simulateFallbackResponse messages isJson now)
   end).

End Env.

End GeminiService.

(** ** Runs of the provider: what is observed along a sequence of events *)
Module Runs.
Import JS ConversationContext.

Definition CallKind_eqb (a b : CallKind) : bool :=
  match a, b with
  | ChatTurn, ChatTurn | ReportSynthesis, ReportSynthesis => true
  | _, _ => false
  end.

(** A call of the kind is in flight. *)
Definition inFlightOf (k : CallKind) (w : World) : bool :=
  existsb (fun f => CallKind_eqb (kind f) k) (inflight w).

(** A message as the provider creates them: a user message is not blank,
    a bot message is not empty. *)
Definition wellFormed (msg : Message) : Prop :=
  match sender msg with
  | user => trim (content msg) <> []
  | bot => content msg <> []
  end.

(** The three texts the provider gives to [setError]. *)
Definition providerErrors : list jsstring :=
  [ str "Failed to get response. Please try again.";
    str "Failed to generate a valid report. Please try again.";
    str "Failed to generate report. Please try again." ].

End Runs.

(** ** Concrete inputs used by the examples *)
Module Samples.
Import JS.

Definition key : jsstring := str "hf_key".

Definition uuid1 : jsstring := str "6f1c2c1e-0001-4000-8000-000000000001".
Definition uuid2 : jsstring := str "6f1c2c1e-0002-4000-8000-000000000002".
Definition uuid3 : jsstring := str "6f1c2c1e-0003-4000-8000-000000000003".

Definition time1 : jsstring := str "2024-05-01T10:00:00.100Z".
Definition time2 : jsstring := str "2024-05-01T10:00:00.200Z".
Definition time3 : jsstring := str "2024-05-01T10:00:00.500Z".

(** A payload of the inference endpoint carrying [text] as generated
    text. *)
Definition generated (text : jsstring) : HuggingFaceService.FetchOutcome :=
  HuggingFaceService.Resolved
    {| HuggingFaceService.ok := true;
       HuggingFaceService.status := 200;
       HuggingFaceService.json_body :=
         Some (JArray [JObject [(str "generated_text", JString text)]]) |}.

Definition serverError : HuggingFaceService.FetchOutcome :=
  HuggingFaceService.Resolved
    {| HuggingFaceService.ok := false;
       HuggingFaceService.status := 503;
       HuggingFaceService.json_body := Some (JObject [(str "error", JString (str "loading"))]) |}.

(** A report text whose scores lie outside 1..10. *)
Definition outOfRangeReportText : jsstring :=
  str "{" ++ DQ ++ str "observedPatterns" ++ DQ ++ str ":[" ++ DQ ++ str "calm" ++ DQ ++ str "],"
  ++ DQ ++ str "tentativeConditions" ++ DQ ++ str ":[],"
  ++ DQ ++ str "moodScore" ++ DQ ++ str ":11,"
  ++ DQ ++ str "sentimentScore" ++ DQ ++ str ":0,"
  ++ DQ ++ str "keyQuotes" ++ DQ ++ str ":[],"
  ++ DQ ++ str "recommendations" ++ DQ ++ str ":[],"
  ++ DQ ++ str "analysisDate" ++ DQ ++ str ":" ++ DQ ++ str "2024-05-01T10:00:00.000Z" ++ DQ ++ str "}".

Definition sampleReport : ConversationContext.Report :=
  {| ConversationContext.observedPatterns := [str "sleeps badly"; str "avoids friends"];
     ConversationContext.tentativeConditions := [str "Mild anxiety"];
     ConversationContext.moodScore := Decimal 4 0;
     ConversationContext.sentimentScore := Decimal 6 0;
     ConversationContext.keyQuotes := [str "I feel anxious"];
     ConversationContext.recommendations := [str "Guided breathing"];
     ConversationContext.analysisDate := str "2024-05-01T10:00:00.000Z" |}.

(** Stand-ins for the two runtime conversions of the export; the second
    prints the mantissa of an integer written without exponent. *)
Definition sampleToLocaleString (iso : jsstring) : jsstring := iso.

Definition sampleNumberToString (n : number) : jsstring :=
  match n with
  | Decimal m _ => str (DecimalString.NilEmpty.string_of_int (Z.to_int m))
  end.

(** Two messages sent one after the other with no commit in between. *)
Definition backToBack : list ConversationContext.Event :=
  [ ConversationContext.Commit;
    ConversationContext.SendMessage (str "first") uuid1 time1;
    ConversationContext.SendMessage (str "second") uuid2 time2 ].

(** A message sent after the mount and before the greeting timeout
    fires. *)
Definition earlyMessage : list ConversationContext.Event :=
  [ ConversationContext.Commit;
    ConversationContext.SendMessage (str "hi") uuid1 time1 ].

(** A report requested and settled with [text] as the generated text. *)
Definition reportRun (text : jsstring) : list ConversationContext.Event :=
  [ ConversationContext.Commit;
    ConversationContext.GenerateReport;
    ConversationContext.ReportSettled 0 (generated text) time3 ].

(** A reply that settles and a next message sent before the commit that
    would show the reply to [messagesRef]. *)
Definition replyThenSend : list ConversationContext.Event :=
  [ ConversationContext.Commit;
    ConversationContext.SendMessage (str "first") uuid1 time1;
    ConversationContext.Commit;
    ConversationContext.ChatSettled 0 (generated (str "Tell me more.")) uuid2 time2;
    ConversationContext.SendMessage (str "second") uuid3 time3 ].

(** The two scenarios of section 8 of the spec. *)
Definition replyScenario : list ConversationContext.Event :=
  [ ConversationContext.SendMessage (str "I feel anxious") uuid1 time1;
    ConversationContext.ChatSettled 0
      (generated (str "That sounds hard. What's been on your mind?")) uuid2 time2 ].

Definition failureScenario : list ConversationContext.Event :=
  [ ConversationContext.SendMessage (str "I feel anxious") uuid1 time1;
    ConversationContext.ChatSettled 0 serverError uuid2 time2 ].

End Samples.

(** ** Stand-ins for the runtime, used by the examples *)
Module RuntimeSamples.
Import JS.

(** Lower case of the ASCII letters (the other code units are left as
    they are, which is not so for [toLowerCase] outside ASCII). *)
Definition asciiLower (s : jsstring) : jsstring :=
  map (fun c => if ((65 <=? c) && (c <=? 90))%N then (c + 32)%N else c) s.

Definition hexDigit (d : N) : N :=
  if (d <? 10)%N then (48 + d)%N else (87 + d)%N.

Definition unicodeEscape (c : N) : jsstring :=
  [ 92%N; 117%N;
    hexDigit (c / 4096); hexDigit ((c / 256) mod 16);
    hexDigit ((c / 16) mod 16); hexDigit (c mod 16) ].

Definition isLeadSurrogate (c : N) : bool := ((55296 <=? c) && (c <=? 56319))%N.
Definition isTrailSurrogate (c : N) : bool := ((56320 <=? c) && (c <=? 57343))%N.

(** The characters of a string between its quotation marks, as
    [JSON.stringify] writes them; [paired] tells that the code unit
    before was a lead surrogate written as it is. *)
Fixpoint escapeBody (paired : bool) (s : jsstring) : jsstring :=
  match s with
  | [] => []
  | c :: r =>
      if (c =? 34)%N then [92%N; 34%N] ++ escapeBody false r
      else if (c =? 92)%N then [92%N; 92%N] ++ escapeBody false r
      else if (c =? 8)%N then [92%N; 98%N] ++ escapeBody false r
      else if (c =? 12)%N then [92%N; 102%N] ++ escapeBody false r
      else if (c =? 10)%N then [92%N; 110%N] ++ escapeBody false r
      else if (c =? 13)%N then [92%N; 114%N] ++ escapeBody false r
      else if (c =? 9)%N then [92%N; 116%N] ++ escapeBody false r
      else if (c <? 32)%N then unicodeEscape c ++ escapeBody false r
      else if isLeadSurrogate c then
        match r with
        | d :: _ => if isTrailSurrogate d then c :: escapeBody true r
                    else unicodeEscape c ++ escapeBody false r
        | [] => unicodeEscape c
        end
      else if isTrailSurrogate c then
        if paired then c :: escapeBody false r
        else unicodeEscape c ++ escapeBody false r
      else c :: escapeBody false r
  end.

Definition quoteString (s : jsstring) : jsstring := DQ ++ escapeBody false s ++ DQ.

Definition showInteger (z : Z) : jsstring :=
  if (z =? 0)%Z then str "0"
  else str (DecimalString.NilEmpty.string_of_int (Z.to_int z)).

(** A writer of JSON text without white space.  A number is written
    with its mantissa and, when it has one, its decimal exponent, which
    the reader takes back to the same number (the runtime writes
    fractions differently). *)
Fixpoint stringify (v : json) : jsstring :=
  match v with
  | JNull => str "null"
  | JBool true => str "true"
  | JBool false => str "false"
  | JNumber (Decimal m e) =>
      showInteger m ++ (if (e =? 0)%Z then [] else str "e" ++ showInteger e)
  | JString s => quoteString s
  | JArray l =>
      str "["
      ++ (fix elements (l : list json) : jsstring :=
            match l with
            | [] => []
            | x :: r =>
                stringify x
                ++ match r with [] => [] | _ :: _ => str "," ++ elements r end
            end) l
      ++ str "]"
  | JObject members =>
      str "{"
      ++ (fix fields (ms : list (jsstring * json)) : jsstring :=
            match ms with
            | [] => []
            | (k, x) :: r =>
                quoteString k ++ str ":" ++ stringify x
                ++ match r with [] => [] | _ :: _ => str "," ++ fields r end
            end) members
      ++ str "}"
  end.

(** A short conversation that ends with the bot. *)
Definition conversation : list HuggingFaceService.MessageInput :=
  [ {| HuggingFaceService.role := HuggingFaceService.model;
       HuggingFaceService.content := str "Hi there! How are you feeling today?" |};
    {| HuggingFaceService.role := HuggingFaceService.user;
       HuggingFaceService.content := str "I feel so alone since I moved" |};
    {| HuggingFaceService.role := HuggingFaceService.model;
       HuggingFaceService.content := str "That sounds hard." |} ].

(** Another one with the same last user message. *)
Definition otherConversation : list HuggingFaceService.MessageInput :=
  [ {| HuggingFaceService.role := HuggingFaceService.user;
       HuggingFaceService.content := str "hello" |};
    {| HuggingFaceService.role := HuggingFaceService.user;
       HuggingFaceService.content := str "I feel so alone since I moved" |} ].

(** A payload of the Gemini endpoint with one candidate. *)
Definition candidatePayload : json :=
  JObject
    [ (str "candidates",
       JArray
         [ JObject
             [ (str "content",
                JObject
                  [ (str "parts",
                     JArray [ JObject [ (str "text", JString (str "I hear you.")) ] ]);
                    (str "role", JString (str "model")) ]);
               (str "finishReason", JString (str "STOP")) ] ]) ].

End RuntimeSamples.

(** * Properties *)

(** ** Facts about the string built-ins *)
Module JSFacts.
Import JS.

Lemma trimStart_app_solid (p q : jsstring) (c : N) :
  isWhiteSpace c = false ->
  trimStart (p ++ c :: q) = trimStart p ++ c :: q.
Proof.
  intros Hc. induction p as [|x p IH]; simpl.
  - now rewrite Hc.
  - destruct (isWhiteSpace x); [exact IH | reflexivity].
Qed.

Lemma trimEnd_app_solid (a y : jsstring) (c : N) :
  isWhiteSpace c = false ->
  trimEnd (a ++ c :: y) = a ++ c :: trimEnd y.
Proof.
  intros Hc. unfold trimEnd.
  rewrite rev_app_distr. simpl rev. rewrite <- app_assoc. simpl app.
  rewrite trimStart_app_solid by exact Hc.
  rewrite rev_app_distr. simpl. rewrite rev_involutive, <- app_assoc.
  reflexivity.
Qed.

Lemma trimStart_blank (s : jsstring) :
  forallb isWhiteSpace s = true -> trimStart s = [].
Proof.
  induction s as [|c s IH]; simpl; [reflexivity|].
  intros H. apply andb_true_iff in H as [Hc Hs]. rewrite Hc. auto.
Qed.

Lemma trimStart_empty_blank (s : jsstring) :
  trimStart s = [] -> forallb isWhiteSpace s = true.
Proof.
  induction s as [|c s IH]; simpl; [reflexivity|].
  destruct (isWhiteSpace c); [exact IH | discriminate].
Qed.

Lemma trim_blank (s : jsstring) :
  forallb isWhiteSpace s = true -> trim s = [].
Proof.
  intros H. unfold trim. now rewrite (trimStart_blank _ H).
Qed.

Lemma trim_empty_blank (s : jsstring) :
  trim s = [] -> forallb isWhiteSpace s = true.
Proof.
  unfold trim, trimEnd. intros H.
  apply trimStart_empty_blank.
  destruct (trimStart s) as [|c r] eqn:E; [reflexivity|].
  exfalso.
  assert (Hc : isWhiteSpace c = false).
  { clear H. induction s as [|x s IH]; simpl in E; [discriminate|].
    destruct (isWhiteSpace x) eqn:Ex; [auto | congruence]. }
  change (c :: r) with ([] ++ c :: r) in H.
  fold (trimEnd ([] ++ c :: r)) in H.
  rewrite trimEnd_app_solid in H by exact Hc. discriminate.
Qed.

Lemma startsWith_app (p s : jsstring) : startsWith p (p ++ s) = true.
Proof.
  induction p as [|x p IH]; simpl; [reflexivity|].
  now rewrite N.eqb_refl.
Qed.

Lemma includes_app (a p b : jsstring) : includes (a ++ p ++ b) p = true.
Proof.
  induction a as [|x a IH].
  - simpl app. destruct p; simpl; [destruct b; reflexivity|].
    rewrite N.eqb_refl, startsWith_app. reflexivity.
  - simpl app. simpl includes. fold (includes (a ++ p ++ b) p).
    rewrite IH. apply orb_true_r.
Qed.

Lemma trimStart_app_tail (u v : jsstring) :
  trimStart u <> [] -> trimStart (u ++ v) = trimStart u ++ v.
Proof.
  induction u as [|x u IH]; simpl; [congruence|].
  destruct (isWhiteSpace x); [exact IH | reflexivity].
Qed.

(** White space is only removed from the last chunk that has something
    else in it. *)
Lemma trimEnd_app_tail (p t : jsstring) :
  trimEnd t <> [] -> trimEnd (p ++ t) = p ++ trimEnd t.
Proof.
  unfold trimEnd. intros H.
  rewrite rev_app_distr, trimStart_app_tail.
  - now rewrite rev_app_distr, rev_involutive.
  - intros E. apply H. now rewrite E.
Qed.

Lemma trimEnd_app_tail_nonempty (p t : jsstring) :
  trimEnd t <> [] -> trimEnd (p ++ t) <> [].
Proof.
  intros H. rewrite trimEnd_app_tail by exact H.
  intros E. apply app_eq_nil in E as [_ E]. contradiction.
Qed.

End JSFacts.

(** ** The inference adapter *)
Module HuggingFaceFacts.
Import JS HuggingFaceService.

Lemma pop_cons (A : Type) (x : A) (l : list A) :
  pop (x :: l) = match pop l with Some y => Some y | None => Some x end.
Proof.
  revert x. induction l as [|y l IH]; intros x; [reflexivity|].
  change (pop (x :: y :: l)) with (pop (y :: l)).
  rewrite (IH y). now destruct (pop l).
Qed.

Lemma lastUserContent_from (messages : list MessageInput) (found : option jsstring) :
  fold_left
    (fun found msg => match role msg with
                      | user => Some (content msg)
                      | model => found
                      end)
    messages found
  = match pop (filter (fun msg => Role_eqb (role msg) user) messages) with
    | Some m => Some (content m)
    | None => found
    end.
Proof.
  revert found. induction messages as [|m ms IH]; intros found; [reflexivity|].
  simpl fold_left. rewrite IH. simpl filter.
  destruct (role m); simpl Role_eqb; cbv iota.
  - rewrite pop_cons. now destruct (pop _).
  - reflexivity.
Qed.

(** The source's [filter(...).pop()?.content] reads the content of the
    last user-role turn. *)
Lemma pop_filter_lastUserContent (messages : list MessageInput) :
  option_map content (pop (filter (fun msg => Role_eqb (role msg) user) messages))
  = lastUserContent messages.
Proof.
  unfold lastUserContent. rewrite lastUserContent_from.
  now destruct (pop _).
Qed.

Lemma buildPrompt_lastUserContent (messages : list MessageInput) :
  buildPrompt messages
  = join LF
      [ str "You are a supportive and empathetic mental health chatbot. Respond naturally and briefly to the user's message.";
        [];
        str "User: " ++ match lastUserContent messages with
                        | Some text => text
                        | None => str "undefined"
                        end;
        str "Assistant:" ].
Proof.
  unfold buildPrompt. rewrite <- pop_filter_lastUserContent.
  now destruct (pop _).
Qed.

(** C10. The prompt, and with it the whole request given to [fetch],
    depends on the turn list only through the content of its last
    user-role turn: two calls whose lists agree on that content (or both
    have no user turn) send the same request, whatever their
    [systemPrompt] arguments and their other turns are. *)
Theorem request_depends_only_on_last_user_turn
    (HF_API_KEY : jsstring)
    (messages1 messages2 : list MessageInput)
    (systemPrompt1 systemPrompt2 : jsstring) :
  lastUserContent messages1 = lastUserContent messages2 ->
  buildPrompt messages1 = buildPrompt messages2 /\
  buildRequest HF_API_KEY messages1 systemPrompt1
  = buildRequest HF_API_KEY messages2 systemPrompt2.
Proof.
  intros Hlast.
  assert (Hprompt : buildPrompt messages1 = buildPrompt messages2).
  { rewrite !buildPrompt_lastUserContent. now rewrite Hlast. }
  split; [exact Hprompt|].
  unfold buildRequest. now rewrite Hprompt.
Qed.

Lemma request_depends_only_on_last_user_turn_witness :
  let history1 :=
    [ {| role := model; content := str "Hi there! How are you feeling today?" |};
      {| role := user; content := str "I feel anxious" |} ] in
  let history2 :=
    [ {| role := user; content := str "hello" |};
      {| role := model; content := str "How can I help?" |};
      {| role := user; content := str "I feel anxious" |};
      {| role := model; content := str "That sounds hard." |} ] in
  lastUserContent history1 = lastUserContent history2 /\
  buildPrompt history1 = buildPrompt history2 /\
  buildRequest (str "key") history1 (str "reply briefly")
  = buildRequest (str "key") history2 (str "write a report").
Proof.
  intros history1 history2.
  split; [reflexivity|].
  apply (request_depends_only_on_last_user_turn
           (str "key") history1 history2 (str "reply briefly") (str "write a report")).
  reflexivity.
Defined.

(** The clean-up at work: an echoed prompt and an opener are removed, a
    label after leading spaces stays (the expression is anchored and the
    text is trimmed after it), and a text left empty gives the stock
    question. *)
Example clean_echo_and_opener :
  cleanGeneratedText (str "PROMPT")
    (str "PROMPT LET ME respond naturally to that. I hear you. ")
  = str "I hear you.".
Proof. reflexivity. Qed.

Example clean_label :
  cleanGeneratedText (str "PROMPT") (str "assistant: I hear you.") = str "I hear you." /\
  cleanGeneratedText (str "PROMPT") (str "  Assistant: I hear you.")
  = str "Assistant: I hear you.".
Proof. split; reflexivity. Qed.

Example clean_blank :
  cleanGeneratedText (str "PROMPT") (str "Assistant:   ")
  = str "I'm glad to hear from you! How can I help you today?".
Proof. reflexivity. Qed.

(** Without a user turn the prompt carries the text [undefined]. *)
Example prompt_without_user_turn :
  buildPrompt [ {| role := model; content := str "Hi there!" |} ]
  = lines
      [ str "You are a supportive and empathetic mental health chatbot. Respond naturally and briefly to the user's message.";
        [];
        str "User: undefined";
        str "Assistant:" ].
Proof. reflexivity. Qed.

Lemma cleanGeneratedText_truthy (prompt text : jsstring) :
  truthy_string (cleanGeneratedText prompt text) = true.
Proof.
  unfold cleanGeneratedText.
  destruct (truthy_string (trim (stripArtifact _))) eqn:E; [exact E | reflexivity].
Qed.

Lemma extractGeneratedText_truthy (prompt : jsstring) (data : json) (text : jsstring) :
  extractGeneratedText prompt data = Ok text -> truthy_string text = true.
Proof.
  unfold extractGeneratedText.
  assert (Hclean : forall g,
             match g with
             | Some (JString t) => Ok (cleanGeneratedText prompt t)
             | _ => Throw TypeError
             end = Ok text -> truthy_string text = true).
  { intros [[| | |t| |]|] H; try discriminate.
    injection H as <-. apply cleanGeneratedText_truthy. }
  destruct (isArray data && ToBoolean _); [apply Hclean|].
  destruct data; try discriminate;
    (destruct (ToBoolean _); [apply Hclean | intros H; now injection H as <-]).
Qed.

(** The adapter never resolves to the empty string: it resolves to a
    non-empty text or it rejects. *)
Lemma resume_truthy (prompt : jsstring) (outcome : FetchOutcome) (text : jsstring) :
  resume prompt outcome = Ok text -> truthy_string text = true.
Proof.
  unfold resume. destruct outcome as [|[ok status [data|]]]; simpl;
    try discriminate; destruct ok; simpl; try discriminate.
  apply extractGeneratedText_truthy.
Qed.

End HuggingFaceFacts.

(** ** The conversation orchestrator *)
Module ConversationFacts.
Import JS ConversationContext.

Lemma truthy_string_nonempty (s : jsstring) :
  truthy_string s = true <-> s <> [].
Proof.
  destruct s; simpl; split; congruence.
Qed.

Lemma truthy_string_empty (s : jsstring) :
  truthy_string s = false <-> s = [].
Proof.
  destruct s; simpl; split; congruence.
Qed.

(** The trimmed form is empty exactly for the empty string and for the
    strings of white space only. *)
Lemma trim_empty_iff (s : jsstring) :
  trim s = [] <-> forallb isWhiteSpace s = true.
Proof.
  split; [apply JSFacts.trim_empty_blank | apply JSFacts.trim_blank].
Qed.

Lemma world_eta (w : World) : withState (state w) w = w.
Proof. now destruct w. Qed.

(** *** [sendMessage] *)

Lemma sendMessage_blank (text uuid now : jsstring) (st : State) :
  trim text = [] -> sendMessage text uuid now st = (None, st).
Proof.
  intros H. unfold sendMessage. now rewrite H.
Qed.

(** What the synchronous part does to the state and which call it
    issues, for a text that is not blank. *)
Lemma sendMessage_issued (text uuid now : jsstring) (st : State) :
  trim text <> [] ->
  let userMessage :=
    {| id := uuid; content := text; sender := user; timestamp := now |} in
  sendMessage text uuid now st
  = (Some {| turns := map toTurn (messagesRef st ++ [userMessage]);
             systemPrompt := chatSystemPrompt |},
     {| messages := messages st ++ [userMessage];
        isLoading := true;
        report := report st;
        isReportGenerating := isReportGenerating st;
        conversationStarted := conversationStarted st;
        error := None;
        messagesRef := messagesRef st |}).
Proof.
  intros H. unfold sendMessage.
  apply truthy_string_nonempty in H. rewrite H. reflexivity.
Qed.

(** C8. A text whose trimmed form is empty makes [sendMessage] a no-op:
    the state comes back as it was (transcript, [isLoading] and every
    other field), no call is issued, and nothing outstanding changes. *)
Theorem sendMessage_blank_is_noop
    (HF_API_KEY : jsstring) (JSON_parse : jsstring -> option json)
    (w : World) (text uuid now : jsstring) :
  trim text = [] ->
  sendMessage text uuid now (state w) = (None, state w) /\
  step JSON_parse HF_API_KEY w (SendMessage text uuid now) = w.
Proof.
  intros H. split; [now apply sendMessage_blank|].
  simpl. rewrite (sendMessage_blank _ _ _ _ H). apply world_eta.
Qed.

Lemma sendMessage_blank_is_noop_witness :
  trim (str "   ") = [] /\
  sendMessage (str "   ") Samples.uuid1 Samples.time1 (state initialWorld)
  = (None, state initialWorld) /\
  step parseText Samples.key initialWorld
    (SendMessage (str "   ") Samples.uuid1 Samples.time1) = initialWorld.
Proof.
  split; [reflexivity|].
  apply (sendMessage_blank_is_noop Samples.key parseText initialWorld
           (str "   ") Samples.uuid1 Samples.time1).
  reflexivity.
Defined.

(** What the resumed part does when the awaited call resolved to a
    non-empty text. *)
Lemma sendMessage_resumed_ok (response uuid now : jsstring) (st : State) :
  truthy_string response = true ->
  snd (sendMessage_resumed (Ok response) uuid now st)
  = {| messages := messages st
                   ++ [{| id := uuid; content := response; sender := bot; timestamp := now |}];
       isLoading := false;
       report := report st;
       isReportGenerating := isReportGenerating st;
       conversationStarted := conversationStarted st;
       error := error st;
       messagesRef := messagesRef st |}.
Proof.
  intros H. unfold sendMessage_resumed. rewrite H. reflexivity.
Qed.

(** What the resumed part does when the awaited call rejected. *)
Lemma sendMessage_resumed_throw (e : Error) (uuid now : jsstring) (st : State) :
  snd (sendMessage_resumed (Throw e) uuid now st)
  = {| messages := messages st
                   ++ [{| id := uuid;
                          content := str "I'm sorry, I'm having trouble responding right now. Could you try again?";
                          sender := bot;
                          timestamp := now |}];
       isLoading := false;
       report := report st;
       isReportGenerating := isReportGenerating st;
       conversationStarted := conversationStarted st;
       error := Some (str "Failed to get response. Please try again.");
       messagesRef := messagesRef st |}.
Proof. reflexivity. Qed.

(** C5. For a text whose trimmed form is not empty, the synchronous part
    of [sendMessage] appends exactly the one user message to the
    transcript and issues the call from the state that already holds it;
    when the call settles, whatever the outcome of the request and
    whatever happened to the state in between, exactly one bot message is
    appended. *)
Theorem sendMessage_appends_one_user_one_bot
    (HF_API_KEY : jsstring) (text uuid now : jsstring) (st : State) :
  trim text <> [] ->
  exists (c : Call) (issuedAt : State),
    sendMessage text uuid now st = (Some c, issuedAt) /\
    messages issuedAt
    = messages st ++ [{| id := uuid; content := text; sender := user; timestamp := now |}] /\
    forall (outcome : HuggingFaceService.FetchOutcome) (uuid' now' : jsstring)
           (settledAt : State),
    exists botMessage : Message,
      sender botMessage = bot /\
      id botMessage = uuid' /\
      messages (snd (sendMessage_resumed (settled HF_API_KEY c outcome) uuid' now' settledAt))
      = messages settledAt ++ [botMessage].
Proof.
  intros H. rewrite (sendMessage_issued _ _ _ _ H).
  eexists; eexists. split; [reflexivity|]. split; [reflexivity|].
  intros outcome uuid' now' settledAt.
  unfold settled, HuggingFaceService.generateContentFromHF. simpl snd at 2.
  destruct (HuggingFaceService.resume _ outcome) as [response|e] eqn:E.
  - apply HuggingFaceFacts.resume_truthy in E.
    rewrite (sendMessage_resumed_ok _ _ _ _ E). simpl.
    eexists. split; [|split; [|reflexivity]]; reflexivity.
  - rewrite sendMessage_resumed_throw. simpl.
    eexists. split; [|split; [|reflexivity]]; reflexivity.
Qed.

Lemma sendMessage_appends_one_user_one_bot_witness :
  trim (str "I feel anxious") <> [] /\
  exists (c : Call) (issuedAt : State),
    sendMessage (str "I feel anxious") Samples.uuid1 Samples.time1 initialState
    = (Some c, issuedAt) /\
    messages issuedAt
    = messages initialState
      ++ [{| id := Samples.uuid1; content := str "I feel anxious";
             sender := user; timestamp := Samples.time1 |}] /\
    forall (outcome : HuggingFaceService.FetchOutcome) (uuid' now' : jsstring)
           (settledAt : State),
    exists botMessage : Message,
      sender botMessage = bot /\
      id botMessage = uuid' /\
      messages (snd (sendMessage_resumed (settled Samples.key c outcome) uuid' now' settledAt))
      = messages settledAt ++ [botMessage].
Proof.
  split; [discriminate|].
  apply (sendMessage_appends_one_user_one_bot Samples.key
           (str "I feel anxious") Samples.uuid1 Samples.time1 initialState).
  discriminate.
Defined.

(** C6. When the awaited inference call throws, the resumed part of
    [sendMessage] sets the error to the retry message and appends the bot
    apology, both; and whatever the awaited call settled to, [isLoading]
    is false when [sendMessage] completes. *)
Theorem sendMessage_failure_sets_error_and_apologises
    (awaited : Result jsstring) (e : Error) (uuid now : jsstring) (st : State) :
  let failed := snd (sendMessage_resumed (Throw e) uuid now st) in
  error failed = Some (str "Failed to get response. Please try again.") /\
  messages failed
  = messages st
    ++ [{| id := uuid;
           content := str "I'm sorry, I'm having trouble responding right now. Could you try again?";
           sender := bot;
           timestamp := now |}] /\
  isLoading failed = false /\
  isLoading (snd (sendMessage_resumed awaited uuid now st)) = false.
Proof.
  simpl. repeat split.
  destruct awaited as [response|e']; [|reflexivity].
  unfold sendMessage_resumed. destruct (truthy_string response); reflexivity.
Qed.

(** *** The turn list of a chat call *)

Lemma toTurn_roleOf (msg : Message) :
  toTurn msg
  = {| HuggingFaceService.role := roleOf (sender msg);
       HuggingFaceService.content := content msg |}.
Proof.
  unfold toTurn. now destruct (sender msg).
Qed.

(** What the turn list is in the case the comments of lines 50 and 91
    have in mind, [messagesRef] mirroring the transcript when
    [sendMessage] is called: one turn for every message of the
    transcript, the just-appended user message included, in transcript
    order, a user message as a user turn and a bot message as a model
    turn, each with the content of its message. *)
Lemma sendMessage_turns_cover_transcript_when_ref_in_sync
    (text uuid now : jsstring) (st : State) :
  trim text <> [] ->
  messagesRef st = messages st ->
  exists (c : Call) (issuedAt : State),
    sendMessage text uuid now st = (Some c, issuedAt) /\
    messages issuedAt
    = messages st ++ [{| id := uuid; content := text; sender := user; timestamp := now |}] /\
    length (turns c) = length (messages issuedAt) /\
    forall (i : nat) (msg : Message),
      nth_error (messages issuedAt) i = Some msg ->
      nth_error (turns c) i
      = Some {| HuggingFaceService.role := roleOf (sender msg);
                HuggingFaceService.content := content msg |}.
Proof.
  intros Htext Hsync. rewrite (sendMessage_issued _ _ _ _ Htext).
  eexists; eexists. split; [reflexivity|]. simpl. rewrite Hsync.
  split; [reflexivity|]. split; [apply length_map|].
  intros i msg Hi. rewrite nth_error_map, Hi. simpl.
  now rewrite toTurn_roleOf.
Qed.

(** C1, at the failing input. Of two messages sent back to back, before
    the commit that refreshes [messagesRef], the second call is issued
    with a turn list that lacks the first message, while the transcript
    holds both: the ref that lines 50-53 are to keep in sync with the
    transcript, and that line 92 reads to get all the messages, is one
    commit behind. *)
Theorem back_to_back_send_misses_a_message :
  map (fun msg => (sender msg, content msg))
      (messages (state (run parseText Samples.key initialWorld Samples.backToBack)))
  = [ (user, str "first"); (user, str "second") ] /\
  map (fun f => turns (call f))
      (inflight (run parseText Samples.key initialWorld Samples.backToBack))
  = [ [ {| HuggingFaceService.role := HuggingFaceService.user;
           HuggingFaceService.content := str "first" |} ];
      [ {| HuggingFaceService.role := HuggingFaceService.user;
           HuggingFaceService.content := str "second" |} ] ] /\
  nth_error
    (map (fun f => turns (call f))
         (inflight (run parseText Samples.key initialWorld Samples.backToBack))) 1
  <> Some (map toTurn
             (messages (state (run parseText Samples.key initialWorld Samples.backToBack)))).
Proof.
  split; [reflexivity|]. split; [reflexivity|].
  vm_compute. discriminate.
Qed.

(** The same happens to a message sent after a reply has settled and
    before the next commit: its turn list lacks the reply. *)
Example send_after_uncommitted_reply_misses_it :
  map (fun msg => (sender msg, content msg))
      (messages (state (run parseText Samples.key initialWorld Samples.replyThenSend)))
  = [ (user, str "first"); (bot, str "Tell me more."); (user, str "second") ] /\
  map (fun f => turns (call f))
      (inflight (run parseText Samples.key initialWorld Samples.replyThenSend))
  = [ [ {| HuggingFaceService.role := HuggingFaceService.user;
           HuggingFaceService.content := str "first" |};
        {| HuggingFaceService.role := HuggingFaceService.user;
           HuggingFaceService.content := str "second" |} ] ].
Proof.
  split; reflexivity.
Qed.

(** The scenarios of the spec: a reply, and a failed call. *)
Example reply_scenario :
  state (run parseText Samples.key initialWorld Samples.replyScenario)
  = {| messages :=
         [ {| id := Samples.uuid1; content := str "I feel anxious";
              sender := user; timestamp := Samples.time1 |};
           {| id := Samples.uuid2;
              content := str "That sounds hard. What's been on your mind?";
              sender := bot; timestamp := Samples.time2 |} ];
       isLoading := false;
       report := JNull;
       isReportGenerating := false;
       conversationStarted := false;
       error := None;
       messagesRef := [] |}.
Proof. reflexivity. Qed.

Example failure_scenario :
  state (run parseText Samples.key initialWorld Samples.failureScenario)
  = {| messages :=
         [ {| id := Samples.uuid1; content := str "I feel anxious";
              sender := user; timestamp := Samples.time1 |};
           {| id := Samples.uuid2;
              content := str "I'm sorry, I'm having trouble responding right now. Could you try again?";
              sender := bot; timestamp := Samples.time2 |} ];
       isLoading := false;
       report := JNull;
       isReportGenerating := false;
       conversationStarted := false;
       error := Some (str "Failed to get response. Please try again.");
       messagesRef := [] |}.
Proof. reflexivity. Qed.

(** *** Growth of the transcript *)

Lemma greetingTimeout_replaces (uuid now : jsstring) (st : State) :
  messages (snd (greetingTimeout uuid now st))
  = [ {| id := uuid;
         content := str "Hi there! How are you feeling today?";
         sender := bot;
         timestamp := now |} ].
Proof. reflexivity. Qed.

Lemma generateReport_resumed_messages
    (JSON_parse : jsstring -> option json) (awaited : Result jsstring)
    (now : jsstring) (st : State) :
  messages (snd (generateReport_resumed JSON_parse awaited now st)) = messages st.
Proof.
  unfold generateReport_resumed.
  destruct awaited as [text|e]; [|reflexivity].
  destruct (truthy_string text); [|reflexivity].
  destruct (JSON_parse text); reflexivity.
Qed.

Lemma sendMessage_resumed_appends (awaited : Result jsstring) (uuid now : jsstring) (st : State) :
  exists suffix,
    messages (snd (sendMessage_resumed awaited uuid now st)) = messages st ++ suffix.
Proof.
  destruct awaited as [response|e].
  - unfold sendMessage_resumed. destruct (truthy_string response).
    + eexists. reflexivity.
    + exists []. simpl. now rewrite app_nil_r.
  - eexists. rewrite sendMessage_resumed_throw. reflexivity.
Qed.

(** Every event other than the greeting timeout keeps the transcript it
    finds and only adds to its end. *)
Lemma step_appends_unless_greeting
    (JSON_parse : jsstring -> option json) (HF_API_KEY : jsstring)
    (w : World) (ev : Event) :
  (forall uuid now, ev <> GreetingTimeout uuid now) ->
  exists suffix,
    messages (state (step JSON_parse HF_API_KEY w ev)) = messages (state w) ++ suffix.
Proof.
  intros Hev.
  assert (Hsame : forall l : list Message, l = l ++ []) by (intros; now rewrite app_nil_r).
  destruct ev as [|uuid now| |text uuid now|i outcome uuid now| |i outcome now].
  - exists []. simpl. destruct (conversationStarted (state w)); simpl; apply Hsame.
  - now elim (Hev uuid now).
  - exists []. simpl. apply Hsame.
  - simpl. destruct (trim text) as [|c r] eqn:E.
    + rewrite (sendMessage_blank _ _ _ _ E). exists []. simpl. apply Hsame.
    + assert (Hne : trim text <> []) by congruence.
      rewrite (sendMessage_issued _ _ _ _ Hne). eexists. reflexivity.
  - simpl. destruct (nth_error (inflight w) i) as [[[|] c]|].
    + simpl. apply sendMessage_resumed_appends.
    + exists []. apply Hsame.
    + exists []. apply Hsame.
  - exists []. simpl. apply Hsame.
  - simpl. destruct (nth_error (inflight w) i) as [[[|] c]|].
    + exists []. apply Hsame.
    + simpl. rewrite generateReport_resumed_messages. exists []. apply Hsame.
    + exists []. apply Hsame.
Qed.

(** C2, at the failing input. A message sent after the mount and before
    the greeting timeout fires is in the transcript; when the timeout
    fires, the transcript is the greeting alone: the greeting is stored
    as a fresh one-element list, it is not appended, and the earlier
    message is gone. *)
Theorem greeting_timeout_discards_earlier_messages :
  messages (state (run parseText Samples.key initialWorld Samples.earlyMessage))
  = [ {| id := Samples.uuid1; content := str "hi";
         sender := user; timestamp := Samples.time1 |} ] /\
  messages (state (run parseText Samples.key initialWorld
                     (Samples.earlyMessage
                      ++ [GreetingTimeout Samples.uuid2 Samples.time3])))
  = [ {| id := Samples.uuid2;
         content := str "Hi there! How are you feeling today?";
         sender := bot;
         timestamp := Samples.time3 |} ].
Proof.
  split; reflexivity.
Qed.

(** *** [generateReport] *)

(** What the report slot holds once the resumed part has run. *)
Lemma generateReport_resumed_report
    (JSON_parse : jsstring -> option json) (awaited : Result jsstring)
    (now : jsstring) (st : State) :
  report (snd (generateReport_resumed JSON_parse awaited now st))
  = match awaited with
    | Throw _ => Report_object (degradedReport now)
    | Ok reportJson =>
        if truthy_string reportJson then
          match JSON_parse reportJson with
          | Some reportData => reportData
          | None => Report_object (degradedReport now)
          end
        else report st
    end.
Proof.
  unfold generateReport_resumed.
  destruct awaited as [text|e]; [|reflexivity].
  destruct (truthy_string text); [|reflexivity].
  destruct (JSON_parse text); reflexivity.
Qed.

Lemma generateReport_failed_report
    (JSON_parse : jsstring -> option json) (awaited : Result jsstring)
    (now : jsstring) (st : State) :
  generationFailed JSON_parse awaited ->
  report (snd (generateReport_resumed JSON_parse awaited now st))
  = Report_object (degradedReport now).
Proof.
  intros Hfail. rewrite generateReport_resumed_report.
  destruct awaited as [text|e]; [|reflexivity].
  destruct Hfail as [Htruthy Hparse]. now rewrite Htruthy, Hparse.
Qed.

(** C7. On every failure path of [generateReport], the awaited call
    throwing or its text failing to parse, the installed report is the
    fixed placeholder: both scores are 5, there are no key quotes and no
    tentative conditions, and the recommendations are the one fallback
    string. *)
Theorem generateReport_failure_installs_placeholder
    (JSON_parse : jsstring -> option json) (awaited : Result jsstring)
    (now : jsstring) (st : State) :
  generationFailed JSON_parse awaited ->
  let installed := report (snd (generateReport_resumed JSON_parse awaited now st)) in
  installed = Report_object (degradedReport now) /\
  getProperty installed (str "moodScore") = Some (JNumber (Decimal 5 0)) /\
  getProperty installed (str "sentimentScore") = Some (JNumber (Decimal 5 0)) /\
  getProperty installed (str "keyQuotes") = Some (JArray []) /\
  getProperty installed (str "tentativeConditions") = Some (JArray []) /\
  getProperty installed (str "recommendations")
  = Some (JArray [JString (str "Consider a general wellness check-in")]).
Proof.
  intros Hfail installed. subst installed.
  rewrite (generateReport_failed_report _ _ now st Hfail).
  repeat split; reflexivity.
Qed.

Lemma generateReport_failure_installs_placeholder_witness :
  generationFailed parseText (Ok (str "I am not sure what to say.")) /\
  getProperty
    (report (snd (generateReport_resumed parseText
                    (Ok (str "I am not sure what to say.")) Samples.time3 initialState)))
    (str "moodScore")
  = Some (JNumber (Decimal 5 0)).
Proof.
  split; [split; reflexivity|].
  apply (generateReport_failure_installs_placeholder parseText
           (Ok (str "I am not sure what to say.")) Samples.time3 initialState).
  split; reflexivity.
Defined.

(** C3, amended. After [generateReport] has settled, the report slot
    holds the degraded placeholder when the call threw or its text did
    not parse, and otherwise the very value the text parsed to; so the
    slot is empty afterwards only when that text is the JSON literal
    [null] (or another text [JSON.parse] reads as [null]). *)
Theorem generateReport_installs_placeholder_or_parsed_value
    (JSON_parse : jsstring -> option json) (HF_API_KEY : jsstring)
    (c : Call) (outcome : HuggingFaceService.FetchOutcome)
    (now : jsstring) (st : State) :
  (report (snd (generateReport_resumed JSON_parse (settled HF_API_KEY c outcome) now st))
   = Report_object (degradedReport now)
   \/ exists (text : jsstring) (v : json),
        settled HF_API_KEY c outcome = Ok text /\
        JSON_parse text = Some v /\
        report (snd (generateReport_resumed JSON_parse (settled HF_API_KEY c outcome) now st))
        = v) /\
  (report (snd (generateReport_resumed JSON_parse (settled HF_API_KEY c outcome) now st))
   = JNull <->
   exists text : jsstring,
     settled HF_API_KEY c outcome = Ok text /\ JSON_parse text = Some JNull).
Proof.
  rewrite generateReport_resumed_report.
  unfold settled, HuggingFaceService.generateContentFromHF. simpl snd.
  destruct (HuggingFaceService.resume _ outcome) as [text|e] eqn:E.
  - rewrite (HuggingFaceFacts.resume_truthy _ _ _ E).
    destruct (JSON_parse text) as [v|] eqn:P.
    + split.
      * right. exists text, v. auto.
      * split.
        -- intros ->. exists text. auto.
        -- intros (text' & Heq & Hnull). injection Heq as <-. congruence.
    + split; [now left|]. split; [discriminate|].
      intros (text' & Heq & Hnull). injection Heq as <-. congruence.
  - split; [now left|]. split; [discriminate|].
    intros (text' & Heq & _). discriminate.
Qed.

(** C3 as stated fails: when the generated text is [null], the call
    settles without an exception, the text parses, and [null] is what is
    stored: the report slot is empty after the settlement. *)
Lemma generateReport_null_text_leaves_slot_empty :
  report (state (run parseText Samples.key initialWorld (Samples.reportRun (str "null"))))
  = JNull /\
  inflight (run parseText Samples.key initialWorld (Samples.reportRun (str "null"))) = [] /\
  isReportGenerating
    (state (run parseText Samples.key initialWorld (Samples.reportRun (str "null"))))
  = false.
Proof.
  repeat split; reflexivity.
Qed.

(** C4, amended. On the degraded-placeholder path the installed report
    has both scores equal to 5, integers between 1 and 10.  On the
    parse-success path the installed report is the parsed value as it
    is, whatever its scores are. *)
Theorem generateReport_scores
    (JSON_parse : jsstring -> option json) (awaited : Result jsstring)
    (now : jsstring) (st : State) :
  (generationFailed JSON_parse awaited ->
   getProperty (report (snd (generateReport_resumed JSON_parse awaited now st)))
     (str "moodScore") = Some (JNumber (Decimal 5 0)) /\
   getProperty (report (snd (generateReport_resumed JSON_parse awaited now st)))
     (str "sentimentScore") = Some (JNumber (Decimal 5 0)) /\
   scoreInRange (report (snd (generateReport_resumed JSON_parse awaited now st)))
     (str "moodScore") = true /\
   scoreInRange (report (snd (generateReport_resumed JSON_parse awaited now st)))
     (str "sentimentScore") = true) /\
  (forall (text : jsstring) (v : json),
     awaited = Ok text ->
     truthy_string text = true ->
     JSON_parse text = Some v ->
     report (snd (generateReport_resumed JSON_parse awaited now st)) = v).
Proof.
  split.
  - intros Hfail. rewrite (generateReport_failed_report _ _ now st Hfail).
    repeat split; reflexivity.
  - intros text v -> Htruthy Hparse.
    rewrite generateReport_resumed_report. now rewrite Htruthy, Hparse.
Qed.

Lemma generateReport_scores_witness :
  generationFailed parseText (Throw NetworkError) /\
  scoreInRange
    (report (snd (generateReport_resumed parseText (Throw NetworkError)
                    Samples.time3 initialState)))
    (str "moodScore") = true /\
  report (snd (generateReport_resumed parseText (Ok Samples.outOfRangeReportText)
                 Samples.time3 initialState))
  = JObject
      [ (str "observedPatterns", JArray [JString (str "calm")]);
        (str "tentativeConditions", JArray []);
        (str "moodScore", JNumber (Decimal 11 0));
        (str "sentimentScore", JNumber (Decimal 0 0));
        (str "keyQuotes", JArray []);
        (str "recommendations", JArray []);
        (str "analysisDate", JString (str "2024-05-01T10:00:00.000Z")) ].
Proof.
  split; [exact I|]. split.
  - apply (generateReport_scores parseText (Throw NetworkError)
             Samples.time3 initialState).
    exact I.
  - exact (proj2 (generateReport_scores parseText (Ok Samples.outOfRangeReportText)
                    Samples.time3 initialState)
             Samples.outOfRangeReportText _ eq_refl eq_refl eq_refl).
Defined.

(** C4 as stated fails on the parse-success path: a generated text that
    is a report with [moodScore] 11 and [sentimentScore] 0 is installed
    as it is. *)
Lemma generateReport_installs_out_of_range_scores :
  getProperty
    (report (state (run parseText Samples.key initialWorld
                      (Samples.reportRun Samples.outOfRangeReportText))))
    (str "moodScore") = Some (JNumber (Decimal 11 0)) /\
  getProperty
    (report (state (run parseText Samples.key initialWorld
                      (Samples.reportRun Samples.outOfRangeReportText))))
    (str "sentimentScore") = Some (JNumber (Decimal 0 0)) /\
  scoreInRange
    (report (state (run parseText Samples.key initialWorld
                      (Samples.reportRun Samples.outOfRangeReportText))))
    (str "moodScore") = false /\
  scoreInRange
    (report (state (run parseText Samples.key initialWorld
                      (Samples.reportRun Samples.outOfRangeReportText))))
    (str "sentimentScore") = false.
Proof.
  repeat split; vm_compute; reflexivity.
Qed.

(** *** The export *)
Section ExportFacts.

Variable toLocaleString : jsstring -> jsstring.
Variable numberToString : number -> jsstring.

Local Abbreviation reportContent := (reportContent toLocaleString numberToString).
Local Abbreviation reportTemplate := (reportTemplate toLocaleString numberToString).
Local Abbreviation exportLayout := (exportLayout toLocaleString numberToString).

Lemma trimStart_template (rest : jsstring) :
  trimStart (LF ++ str "Mental Health Assessment Report" ++ rest)
  = str "Mental Health Assessment Report" ++ rest.
Proof. reflexivity. Qed.

Lemma trimEnd_recommendations (post : jsstring) :
  trimEnd (str "Recommendations:" ++ post) = str "Recommendations:" ++ trimEnd post.
Proof.
  change (str "Recommendations:" ++ post)
    with (str "Recommendations" ++ 58%N :: post).
  now rewrite JSFacts.trimEnd_app_solid.
Qed.

Lemma trimEnd_recommendations_nonempty (post : jsstring) :
  trimEnd (str "Recommendations:" ++ post) <> [].
Proof.
  rewrite trimEnd_recommendations. discriminate.
Qed.

(** The chunks up to the Recommendations heading are followed by
    something that is not white space. *)
Ltac solid_tail :=
  lazymatch goal with
  | |- trimEnd (str "Recommendations:" ++ _) <> [] =>
      apply trimEnd_recommendations_nonempty
  | |- trimEnd (_ ++ _) <> [] =>
      apply JSFacts.trimEnd_app_tail_nonempty; solid_tail
  end.

(** The export is the described layout, with the substitution of lines
    229-235 where the Potential Conditions section goes. *)
Lemma reportContent_layout (r : Report) :
  reportContent r = exportLayout r (conditionsSection r).
Proof.
  unfold ConversationContext.reportContent, ConversationContext.reportTemplate,
    ConversationContext.exportLayout, trim.
  rewrite trimStart_template.
  repeat (rewrite JSFacts.trimEnd_app_tail by solid_tail).
  rewrite trimEnd_recommendations. reflexivity.
Qed.

Lemma conditionsSection_empty_iff (r : Report) :
  conditionsSection r = [] <-> tentativeConditions r = [].
Proof.
  unfold conditionsSection.
  destruct (tentativeConditions r); simpl; split; congruence.
Qed.

Lemma conditionsSection_nonempty (r : Report) :
  tentativeConditions r <> [] ->
  conditionsSection r
  = LF ++ str "Potential Conditions:" ++ LF ++ bulleted (tentativeConditions r).
Proof.
  unfold conditionsSection.
  destruct (tentativeConditions r); [congruence | reflexivity].
Qed.

Lemma exportLayout_section_inj (r : Report) (s1 s2 : jsstring) :
  exportLayout r s1 = exportLayout r s2 -> s1 = s2.
Proof.
  unfold ConversationContext.exportLayout. intros H.
  repeat apply app_inv_head in H.
  now apply app_inv_tail in H.
Qed.

Lemma exportLayout_includes (r : Report) (section before heading after : jsstring) :
  exportLayout r section = before ++ heading ++ after ->
  includes (exportLayout r section) heading = true.
Proof.
  intros ->. apply JSFacts.includes_app.
Qed.

(** The parts of the layout that do not depend on the conditions. *)
Lemma exportLayout_fixed_parts (r : Report) (section : jsstring) :
  Forall (fun part => includes (exportLayout r section) part = true)
    [ str "Mental Health Assessment Report";
      str "Generated on: " ++ toLocaleString (analysisDate r);
      str "Mood Score: " ++ numberToString (moodScore r) ++ str "/10";
      str "Sentiment Score: " ++ numberToString (sentimentScore r) ++ str "/10";
      str "Observed Patterns:" ++ LF ++ bulleted (observedPatterns r);
      str "Key Quotes:" ++ LF ++ quoted (keyQuotes r);
      str "Recommendations:" ].
Proof.
  repeat apply Forall_cons; [ | | | | | | | apply Forall_nil ].
  - apply (exportLayout_includes r section []
             (str "Mental Health Assessment Report") _ eq_refl).
  - eapply (exportLayout_includes r section
              (str "Mental Health Assessment Report" ++ LF)).
    unfold ConversationContext.exportLayout.
    rewrite <- !app_assoc. reflexivity.
  - eapply (exportLayout_includes r section
              (str "Mental Health Assessment Report" ++ LF
               ++ str "Generated on: " ++ toLocaleString (analysisDate r) ++ LF ++ LF)).
    unfold ConversationContext.exportLayout.
    rewrite <- !app_assoc. reflexivity.
  - eapply (exportLayout_includes r section
              (str "Mental Health Assessment Report" ++ LF
               ++ str "Generated on: " ++ toLocaleString (analysisDate r) ++ LF ++ LF
               ++ str "Mood Score: " ++ numberToString (moodScore r) ++ str "/10" ++ LF)).
    unfold ConversationContext.exportLayout.
    rewrite <- !app_assoc. reflexivity.
  - eapply (exportLayout_includes r section
              (str "Mental Health Assessment Report" ++ LF
               ++ str "Generated on: " ++ toLocaleString (analysisDate r) ++ LF ++ LF
               ++ str "Mood Score: " ++ numberToString (moodScore r) ++ str "/10" ++ LF
               ++ str "Sentiment Score: " ++ numberToString (sentimentScore r)
               ++ str "/10" ++ LF ++ LF)).
    unfold ConversationContext.exportLayout.
    rewrite <- !app_assoc. reflexivity.
  - eapply (exportLayout_includes r section
              (str "Mental Health Assessment Report" ++ LF
               ++ str "Generated on: " ++ toLocaleString (analysisDate r) ++ LF ++ LF
               ++ str "Mood Score: " ++ numberToString (moodScore r) ++ str "/10" ++ LF
               ++ str "Sentiment Score: " ++ numberToString (sentimentScore r)
               ++ str "/10" ++ LF ++ LF
               ++ str "Observed Patterns:" ++ LF ++ bulleted (observedPatterns r)
               ++ LF ++ LF ++ section ++ LF ++ LF)).
    unfold ConversationContext.exportLayout.
    rewrite <- !app_assoc. reflexivity.
  - eapply (exportLayout_includes r section
              (str "Mental Health Assessment Report" ++ LF
               ++ str "Generated on: " ++ toLocaleString (analysisDate r) ++ LF ++ LF
               ++ str "Mood Score: " ++ numberToString (moodScore r) ++ str "/10" ++ LF
               ++ str "Sentiment Score: " ++ numberToString (sentimentScore r)
               ++ str "/10" ++ LF ++ LF
               ++ str "Observed Patterns:" ++ LF ++ bulleted (observedPatterns r)
               ++ LF ++ LF ++ section ++ LF ++ LF
               ++ str "Key Quotes:" ++ LF ++ quoted (keyQuotes r) ++ LF ++ LF)).
    unfold ConversationContext.exportLayout.
    rewrite <- !app_assoc. reflexivity.
Qed.

(** C9. The exported document is the layout without a Potential
    Conditions section exactly when the report has no tentative
    conditions; when it has some, the document is the layout with the
    section, heading and bullets, between Observed Patterns and Key
    Quotes.  In either case the header, the generation time, the two
    scores, the Observed Patterns section, the Key Quotes section and the
    Recommendations heading are in the document. *)
Theorem export_omits_conditions_iff_none (r : Report) :
  (reportContent r = exportLayout r [] <-> tentativeConditions r = []) /\
  (tentativeConditions r <> [] ->
   reportContent r
   = exportLayout r
       (LF ++ str "Potential Conditions:" ++ LF ++ bulleted (tentativeConditions r))) /\
  Forall (fun part => includes (reportContent r) part = true)
    [ str "Mental Health Assessment Report";
      str "Generated on: " ++ toLocaleString (analysisDate r);
      str "Mood Score: " ++ numberToString (moodScore r) ++ str "/10";
      str "Sentiment Score: " ++ numberToString (sentimentScore r) ++ str "/10";
      str "Observed Patterns:" ++ LF ++ bulleted (observedPatterns r);
      str "Key Quotes:" ++ LF ++ quoted (keyQuotes r);
      str "Recommendations:" ].
Proof.
  rewrite reportContent_layout. split; [|split].
  - rewrite <- conditionsSection_empty_iff. split.
    + apply exportLayout_section_inj.
    + now intros ->.
  - intros H. now rewrite (conditionsSection_nonempty r H).
  - apply exportLayout_fixed_parts.
Qed.

End ExportFacts.

Lemma export_omits_conditions_iff_none_witness :
  tentativeConditions Samples.sampleReport <> [] /\
  reportContent Samples.sampleToLocaleString Samples.sampleNumberToString
    Samples.sampleReport
  = exportLayout Samples.sampleToLocaleString Samples.sampleNumberToString
      Samples.sampleReport
      (LF ++ str "Potential Conditions:" ++ LF
       ++ bulleted (tentativeConditions Samples.sampleReport)).
Proof.
  split; [discriminate|].
  apply (export_omits_conditions_iff_none
           Samples.sampleToLocaleString Samples.sampleNumberToString
           Samples.sampleReport).
  discriminate.
Defined.

(** The export of the sample report and of the degraded placeholder,
    line by line. *)
Example export_of_sample_report :
  reportContent Samples.sampleToLocaleString Samples.sampleNumberToString
    Samples.sampleReport
  = lines
      [ str "Mental Health Assessment Report";
        str "Generated on: 2024-05-01T10:00:00.000Z";
        [];
        str "Mood Score: 4/10";
        str "Sentiment Score: 6/10";
        [];
        str "Observed Patterns:";
        str "- sleeps badly";
        str "- avoids friends";
        [];
        [];
        str "Potential Conditions:";
        str "- Mild anxiety";
        [];
        str "Key Quotes:";
        str "- " ++ DQ ++ str "I feel anxious" ++ DQ;
        [];
        str "Recommendations:";
        str "- Guided breathing" ].
Proof. vm_compute. reflexivity. Qed.

Example export_of_degraded_report :
  reportContent Samples.sampleToLocaleString Samples.sampleNumberToString
    (degradedReport Samples.time3)
  = lines
      [ str "Mental Health Assessment Report";
        str "Generated on: 2024-05-01T10:00:00.500Z";
        [];
        str "Mood Score: 5/10";
        str "Sentiment Score: 5/10";
        [];
        str "Observed Patterns:";
        str "- Error generating comprehensive report";
        [];
        [];
        [];
        str "Key Quotes:";
        [];
        [];
        str "Recommendations:";
        str "- Consider a general wellness check-in" ].
Proof. vm_compute. reflexivity. Qed.

End ConversationFacts.

(** * Further properties of the code *)

(** ** More on trimming and searching *)
Module TrimFacts.
Import JS.

Lemma trimStart_length (s : jsstring) : length (trimStart s) <= length s.
Proof.
  induction s as [|c s IH]; simpl; [apply le_n|].
  destruct (isWhiteSpace c); [apply le_S, IH | apply le_n].
Qed.

Lemma trimStart_idempotent (s : jsstring) : trimStart (trimStart s) = trimStart s.
Proof.
  induction s as [|c s IH]; simpl; [reflexivity|].
  destruct (isWhiteSpace c) eqn:E; [exact IH|].
  simpl. now rewrite E.
Qed.

Lemma trimEnd_idempotent (s : jsstring) : trimEnd (trimEnd s) = trimEnd s.
Proof.
  unfold trimEnd. now rewrite rev_involutive, trimStart_idempotent.
Qed.

(** A string that [trimStart] leaves alone is empty or starts with a
    code unit that is not white space. *)
Lemma trimStart_fixed_head (c : N) (r : jsstring) :
  trimStart (c :: r) = c :: r -> isWhiteSpace c = false.
Proof.
  simpl. destruct (isWhiteSpace c); [|reflexivity].
  intros H. pose proof (trimStart_length r) as L.
  rewrite H in L. simpl in L. exfalso.
  exact (PeanoNat.Nat.nle_succ_diag_l _ L).
Qed.

Lemma trimStart_trimEnd (s : jsstring) :
  trimStart s = s -> trimStart (trimEnd s) = trimEnd s.
Proof.
  destruct s as [|c r]; [reflexivity|].
  intros H. apply trimStart_fixed_head in H.
  change (c :: r) with ([] ++ c :: r).
  rewrite (JSFacts.trimEnd_app_solid [] r c H). simpl. now rewrite H.
Qed.

Lemma trim_idempotent (s : jsstring) : trim (trim s) = trim s.
Proof.
  unfold trim.
  rewrite (trimStart_trimEnd (trimStart s) (trimStart_idempotent s)).
  apply trimEnd_idempotent.
Qed.

Lemma remove_first_unfold (p s : jsstring) :
  remove_first p s
  = if startsWith p s then skipn (length p) s
    else match s with
         | [] => []
         | c :: r => c :: remove_first p r
         end.
Proof. destruct s; reflexivity. Qed.

Lemma skipn_length_app (p r : jsstring) : skipn (length p) (p ++ r) = r.
Proof.
  induction p as [|x p IH]; [reflexivity | exact IH].
Qed.

(** Removing a text from what starts with it leaves the rest. *)
Lemma remove_first_prefix (p r : jsstring) : remove_first p (p ++ r) = r.
Proof.
  rewrite remove_first_unfold, JSFacts.startsWith_app. apply skipn_length_app.
Qed.

Lemma includes_prefix (p r : jsstring) : includes (p ++ r) p = true.
Proof.
  exact (JSFacts.includes_app [] p r).
Qed.

(** Matching under [/i]: a text matches at the start of a string that
    begins with any letter-case variant of it. *)
Lemma startsWith_i_variant (p l rest : jsstring) :
  map canonicalize l = map canonicalize p ->
  startsWith_i p (l ++ rest) = true.
Proof.
  revert l. induction p as [|x p IH]; intros l H; [reflexivity|].
  destruct l as [|y l]; [discriminate|].
  simpl in H. injection H as Hy Hl.
  simpl. rewrite Hy, N.eqb_refl. now apply IH.
Qed.

Lemma startsWith_i_head (p s : jsstring) (x y : N) :
  canonicalize x <> canonicalize y ->
  startsWith_i (x :: p) (y :: s) = false.
Proof.
  intros H. simpl. apply N.eqb_neq in H. now rewrite H.
Qed.

End TrimFacts.

(** ** More on the Hugging Face adapter *)
Module AdapterExtras.
Import JS HuggingFaceService.

(** X1. Whatever the outcome of the request, [generateContentFromHF]
    does not resolve to the empty string: when it resolves, the text has
    at least one code unit. *)
Theorem generateContentFromHF_never_resolves_empty
    (HF_API_KEY : jsstring) (messages : list MessageInput)
    (systemPrompt : jsstring) (outcome : FetchOutcome) (text : jsstring) :
  snd (generateContentFromHF HF_API_KEY messages systemPrompt outcome) = Ok text ->
  text <> [].
Proof.
  simpl. intros H. apply HuggingFaceFacts.resume_truthy in H.
  now destruct text.
Qed.

Lemma generateContentFromHF_never_resolves_empty_witness :
  snd (generateContentFromHF Samples.key [] [] (Samples.generated (str "   ")))
  = Ok (str "I'm glad to hear from you! How can I help you today?") /\
  str "I'm glad to hear from you! How can I help you today?" <> [].
Proof.
  split; [reflexivity|].
  apply (generateContentFromHF_never_resolves_empty Samples.key [] []
           (Samples.generated (str "   "))).
  reflexivity.
Defined.

Lemma cleanGeneratedText_trimmed (prompt text : jsstring) :
  trim (cleanGeneratedText prompt text) = cleanGeneratedText prompt text.
Proof.
  unfold cleanGeneratedText.
  destruct (truthy_string (trim (stripArtifact _))); [|reflexivity].
  apply TrimFacts.trim_idempotent.
Qed.

(** X2. The text [generateContentFromHF] resolves to has no white space
    at either end: trimming it changes nothing. *)
Theorem generateContentFromHF_resolves_trimmed
    (HF_API_KEY : jsstring) (messages : list MessageInput)
    (systemPrompt : jsstring) (outcome : FetchOutcome) (text : jsstring) :
  snd (generateContentFromHF HF_API_KEY messages systemPrompt outcome) = Ok text ->
  trim text = text.
Proof.
  simpl. unfold resume.
  destruct outcome as [|[ok status [data|]]]; simpl;
    try discriminate; destruct ok; simpl; try discriminate.
  unfold extractGeneratedText.
  assert (Hclean : forall g,
             match g with
             | Some (JString t) => Ok (cleanGeneratedText (buildPrompt messages) t)
             | _ => Throw TypeError
             end = Ok text -> trim text = text).
  { intros [[| | |t| |]|] H; try discriminate.
    injection H as <-. apply cleanGeneratedText_trimmed. }
  destruct (isArray data && ToBoolean _); [apply Hclean|].
  destruct data; try discriminate;
    (destruct (ToBoolean _); [apply Hclean | intros H; now injection H as <-]).
Qed.

Lemma generateContentFromHF_resolves_trimmed_witness :
  snd (generateContentFromHF Samples.key [] []
         (Samples.generated (str "  Assistant: I hear you.  ")))
  = Ok (str "Assistant: I hear you.") /\
  trim (str "Assistant: I hear you.") = str "Assistant: I hear you.".
Proof.
  split; [reflexivity|].
  apply (generateContentFromHF_resolves_trimmed Samples.key [] []
           (Samples.generated (str "  Assistant: I hear you.  "))).
  reflexivity.
Defined.

(** X3. The adapter resolves to a text only for a response whose status
    is ok and whose body is JSON.  A response whose status is not ok
    rejects it, with the error that carries the status when the body is
    JSON and with the syntax error of [response.json()] when it is not,
    and a rejected [fetch] rejects it too. *)
Theorem generateContentFromHF_resolves_only_on_ok_json
    (HF_API_KEY : jsstring) (messages : list MessageInput)
    (systemPrompt : jsstring) :
  (forall (outcome : FetchOutcome) (text : jsstring),
     snd (generateContentFromHF HF_API_KEY messages systemPrompt outcome) = Ok text ->
     exists (status : N) (data : json),
       outcome = Resolved {| ok := true; status := status; json_body := Some data |}) /\
  (forall (status : N) (body : option json),
     snd (generateContentFromHF HF_API_KEY messages systemPrompt
            (Resolved {| ok := false; status := status; json_body := body |}))
     = Throw (match body with Some _ => ApiError status | None => SyntaxError end)) /\
  snd (generateContentFromHF HF_API_KEY messages systemPrompt Rejected)
  = Throw NetworkError.
Proof.
  split; [|split; [|reflexivity]].
  - intros [|[ok status [data|]]] text; simpl; try discriminate;
      destruct ok; simpl; try discriminate.
    intros _. now exists status, data.
  - intros status body. now destruct body.
Qed.

Lemma generateContentFromHF_resolves_only_on_ok_json_witness :
  snd (generateContentFromHF Samples.key [] [] (Samples.generated (str "Hello.")))
  = Ok (str "Hello.") /\
  exists (status : N) (data : json),
    Samples.generated (str "Hello.")
    = Resolved {| ok := true; status := status; json_body := Some data |}.
Proof.
  split; [reflexivity|].
  apply (proj1 (generateContentFromHF_resolves_only_on_ok_json Samples.key [] [])
           (Samples.generated (str "Hello.")) (str "Hello.")).
  reflexivity.
Defined.

(** X4. Both payload shapes are read alike: an array whose first element
    is an object with a non-empty string [generated_text], and such an
    object on its own, give the cleaned-up text of that member, whatever
    else the object and the array hold. *)
Theorem extractGeneratedText_reads_both_shapes
    (prompt : jsstring) (members : list (jsstring * json))
    (others : list json) (text : jsstring) :
  lookup_last (str "generated_text") members = Some (JString text) ->
  text <> [] ->
  extractGeneratedText prompt (JArray (JObject members :: others))
  = Ok (cleanGeneratedText prompt text) /\
  extractGeneratedText prompt (JObject members)
  = Ok (cleanGeneratedText prompt text).
Proof.
  intros Hget Hne. unfold extractGeneratedText. simpl. rewrite Hget.
  destruct text as [|c r]; [congruence|]. simpl. split; reflexivity.
Qed.

Lemma extractGeneratedText_reads_both_shapes_witness :
  extractGeneratedText (str "PROMPT")
    (JArray [ JObject [ (str "details", JNull);
                        (str "generated_text", JString (str " I hear you. ")) ];
              JNumber (Decimal 1 0) ])
  = Ok (str "I hear you.") /\
  extractGeneratedText (str "PROMPT")
    (JObject [ (str "details", JNull);
               (str "generated_text", JString (str " I hear you. ")) ])
  = Ok (str "I hear you.").
Proof.
  apply (extractGeneratedText_reads_both_shapes (str "PROMPT")
           [ (str "details", JNull);
             (str "generated_text", JString (str " I hear you. ")) ]
           [ JNumber (Decimal 1 0) ] (str " I hear you. ")).
  - reflexivity.
  - discriminate.
Defined.

(** X5. Reading the payload only ever throws a [TypeError], and only for
    a payload that is [null] or whose [generated_text] (of the first
    element or of the payload itself) is there, truthy, and not a
    string. *)
Theorem extractGeneratedText_throws_only_on_null_or_non_string
    (prompt : jsstring) (data : json) (e : Error) :
  extractGeneratedText prompt data = Throw e ->
  e = TypeError /\
  (data = JNull \/
   exists g : json,
     (optionalChain (index0 data) (str "generated_text") = Some g \/
      getProperty data (str "generated_text") = Some g) /\
     ToBoolean (Some g) = true /\
     forall t : jsstring, g <> JString t).
Proof.
  unfold extractGeneratedText.
  assert (Hclean : forall g,
             ToBoolean g = true ->
             match g with
             | Some (JString t) => Ok (cleanGeneratedText prompt t)
             | _ => Throw TypeError
             end = Throw e ->
             e = TypeError /\
             exists v, g = Some v /\ ToBoolean (Some v) = true /\
                       forall t, v <> JString t).
  { intros [v|] Htruthy H; [|discriminate].
    destruct v; try discriminate; injection H as <-;
      (split; [reflexivity|]; eexists; split; [reflexivity|];
       split; [exact Htruthy | discriminate]). }
  destruct (isArray data && ToBoolean _) eqn:E.
  - apply andb_true_iff in E as [_ E]. intros H.
    destruct (Hclean _ E H) as (-> & v & Hv & Ht & Hs).
    split; [reflexivity|]. right. exists v. auto.
  - destruct data; try (intros H; injection H as <-; auto; fail);
      (destruct (ToBoolean (getProperty _ _)) eqn:T; [|discriminate];
       intros H; destruct (Hclean _ T H) as (-> & v & Hv & Ht & Hs);
       split; [reflexivity|]; right; exists v; auto).
Qed.

Lemma extractGeneratedText_throws_only_on_null_or_non_string_witness :
  extractGeneratedText (str "PROMPT")
    (JObject [ (str "generated_text", JNumber (Decimal 42 0)) ])
  = Throw TypeError /\
  TypeError = TypeError /\
  (JObject [ (str "generated_text", JNumber (Decimal 42 0)) ] = JNull \/
   exists g : json,
     (optionalChain
        (index0 (JObject [ (str "generated_text", JNumber (Decimal 42 0)) ]))
        (str "generated_text") = Some g \/
      getProperty (JObject [ (str "generated_text", JNumber (Decimal 42 0)) ])
        (str "generated_text") = Some g) /\
     ToBoolean (Some g) = true /\
     forall t : jsstring, g <> JString t).
Proof.
  split; [reflexivity|].
  apply (extractGeneratedText_throws_only_on_null_or_non_string (str "PROMPT")
           (JObject [ (str "generated_text", JNumber (Decimal 42 0)) ]) TypeError).
  reflexivity.
Defined.

(** X6. When the generated text starts with the prompt (the endpoint
    returned the full text), the prompt is cut off and the result is the
    clean-up of what follows it: trimmed, one leading artifact removed,
    trimmed again, and the stock question when nothing is left. *)
Theorem cleanGeneratedText_removes_echoed_prompt (prompt reply : jsstring) :
  cleanGeneratedText prompt (prompt ++ reply)
  = if truthy_string (trim (stripArtifact (trim reply)))
    then trim (stripArtifact (trim reply))
    else str "I'm glad to hear from you! How can I help you today?".
Proof.
  unfold cleanGeneratedText.
  now rewrite TrimFacts.includes_prefix, TrimFacts.remove_first_prefix.
Qed.

(** X7. A leading [Assistant:] label is removed whatever the case of its
    letters, and so is the opener [Let me respond naturally to that]
    with the full stop that may follow it; what comes after is kept as
    it is.  Only the start of the text is looked at: the result is
    always the end of the text. *)
Theorem stripArtifact_ignores_case (variant rest : jsstring) :
  (map canonicalize variant = map canonicalize (str "Assistant:") ->
   stripArtifact (variant ++ rest) = rest) /\
  (map canonicalize variant
   = map canonicalize (str "Let me respond naturally to that") ->
   stripArtifact (variant ++ rest)
   = match rest with
     | c :: r => if (c =? 46)%N then r else rest
     | [] => []
     end) /\
  exists removed : jsstring, variant ++ rest = removed ++ stripArtifact (variant ++ rest).
Proof.
  split; [|split].
  - intros H. unfold stripArtifact.
    rewrite (TrimFacts.startsWith_i_variant _ _ rest H).
    apply (f_equal (@length N)) in H. rewrite !length_map in H.
    rewrite <- H. apply TrimFacts.skipn_length_app.
  - intros H. unfold stripArtifact.
    assert (Hlen : length variant = length (str "Let me respond naturally to that")).
    { apply (f_equal (@length N)) in H. now rewrite !length_map in H. }
    destruct variant as [|y variant]; [discriminate|].
    assert (Hy : canonicalize y = canonicalize 76%N) by (now injection H).
    assert (Hlabel : startsWith_i (str "Assistant:") ((y :: variant) ++ rest) = false).
    { apply (TrimFacts.startsWith_i_head (str "ssistant:") (variant ++ rest) 65 y).
      rewrite Hy. discriminate. }
    rewrite Hlabel.
    rewrite (TrimFacts.startsWith_i_variant _ _ rest H).
    rewrite <- Hlen, TrimFacts.skipn_length_app.
    destruct rest as [|c r]; [reflexivity|]. now destruct (c =? 46)%N.
  - unfold stripArtifact.
    destruct (startsWith_i (str "Assistant:") (variant ++ rest)).
    + exists (firstn (length (str "Assistant:")) (variant ++ rest)).
      now rewrite firstn_skipn.
    + destruct (startsWith_i _ (variant ++ rest)); [|now exists []].
      destruct (skipn _ (variant ++ rest)) as [|c r] eqn:E.
      * exists (variant ++ rest). now rewrite app_nil_r.
      * pose proof (firstn_skipn (length (str "Let me respond naturally to that"))
                      (variant ++ rest)) as F.
        rewrite E in F.
        destruct (c =? 46)%N.
        -- exists (firstn (length (str "Let me respond naturally to that"))
                     (variant ++ rest) ++ [c]).
           now rewrite <- app_assoc.
        -- eexists. symmetry. exact F.
Qed.

Lemma stripArtifact_ignores_case_witness :
  map canonicalize (str "aSSistant:") = map canonicalize (str "Assistant:") /\
  stripArtifact (str "aSSistant:" ++ str " hello") = str " hello".
Proof.
  split; [reflexivity|].
  exact (proj1 (stripArtifact_ignores_case (str "aSSistant:") (str " hello"))
           eq_refl).
Defined.

Lemma buildPrompt_shape (messages : list MessageInput) :
  buildPrompt messages
  = (str "You are a supportive and empathetic mental health chatbot. Respond naturally and briefly to the user's message."
     ++ LF ++ LF ++ str "User: ")
    ++ contentText (pop (filter (fun msg => Role_eqb (role msg) user) messages))
    ++ (LF ++ str "Assistant:").
Proof.
  unfold buildPrompt. simpl join. now rewrite <- !app_assoc.
Qed.

(** X21. The prompt tells the last user message and nothing else: two
    turn lists get the same prompt exactly when the text put after
    [User:] is the same, that is the content of the last user turn, or
    the word [undefined] for a list without user turn (which the prompt
    does not tell from a last user message that is this very word). *)
Theorem buildPrompt_equal_iff_same_last_user_text
    (messages1 messages2 : list MessageInput) :
  buildPrompt messages1 = buildPrompt messages2 <->
  match lastUserContent messages1 with Some text => text | None => str "undefined" end
  = match lastUserContent messages2 with Some text => text | None => str "undefined" end.
Proof.
  rewrite <- !HuggingFaceFacts.pop_filter_lastUserContent.
  rewrite !buildPrompt_shape.
  set (last1 := pop (filter _ messages1)).
  set (last2 := pop (filter _ messages2)).
  assert (H1 : contentText last1
               = match option_map content last1 with
                 | Some text => text
                 | None => str "undefined"
                 end) by (now destruct last1).
  assert (H2 : contentText last2
               = match option_map content last2 with
                 | Some text => text
                 | None => str "undefined"
                 end) by (now destruct last2).
  rewrite <- H1, <- H2. split.
  - intros H. apply app_inv_head in H. now apply app_inv_tail in H.
  - now intros ->.
Qed.

(** A list without user turn and one whose last user message is the word
    [undefined] get the same prompt. *)
Example prompt_of_undefined :
  buildPrompt [] = buildPrompt [ {| role := user; content := str "undefined" |} ].
Proof. reflexivity. Qed.

End AdapterExtras.

(** ** More on the provider *)
Module ProviderExtras.
Import JS ConversationContext Runs.

(** *** What the provider asks the endpoint *)

Lemma lastUserContent_app (l1 l2 : list HuggingFaceService.MessageInput) :
  HuggingFaceService.lastUserContent (l1 ++ l2)
  = match HuggingFaceService.lastUserContent l2 with
    | Some text => Some text
    | None => HuggingFaceService.lastUserContent l1
    end.
Proof.
  unfold HuggingFaceService.lastUserContent.
  rewrite fold_left_app.
  rewrite (HuggingFaceFacts.lastUserContent_from l2 (fold_left _ l1 None)).
  rewrite (HuggingFaceFacts.lastUserContent_from l2 None).
  now destruct (HuggingFaceService.pop _).
Qed.

Lemma lastUserContent_bots (l : list Message) :
  Forall (fun msg => sender msg = bot) l ->
  HuggingFaceService.lastUserContent (map toTurn l) = None.
Proof.
  induction 1 as [|msg l Hmsg _ IH]; [reflexivity|].
  change (map toTurn (msg :: l)) with ([toTurn msg] ++ map toTurn l).
  rewrite lastUserContent_app, IH.
  unfold toTurn. now rewrite Hmsg.
Qed.

Lemma lastUserContent_last_user (before after : list Message) (msg : Message) :
  sender msg = user ->
  Forall (fun m => sender m = bot) after ->
  HuggingFaceService.lastUserContent (map toTurn (before ++ msg :: after))
  = Some (content msg).
Proof.
  intros Hmsg Hafter.
  rewrite map_app. change (map toTurn (msg :: after)) with ([toTurn msg] ++ map toTurn after).
  rewrite !lastUserContent_app, (lastUserContent_bots _ Hafter).
  unfold toTurn. now rewrite Hmsg.
Qed.

(** X8. Whatever the transcript and whatever [messagesRef] holds, the
    prompt sent for a chat turn is the fixed persona line followed by
    the text that was just sent: the request of a [sendMessage] call
    carries the new message and nothing else of the conversation. *)
Theorem chat_request_carries_the_sent_text
    (HF_API_KEY : jsstring) (text uuid now : jsstring) (st : State) :
  trim text <> [] ->
  exists (c : Call) (issuedAt : State),
    sendMessage text uuid now st = (Some c, issuedAt) /\
    HuggingFaceService.body
      (HuggingFaceService.buildRequest HF_API_KEY (turns c) (systemPrompt c))
    = JObject
        [ (str "inputs",
           JString
             (lines
                [ str "You are a supportive and empathetic mental health chatbot. Respond naturally and briefly to the user's message.";
                  [];
                  str "User: " ++ text;
                  str "Assistant:" ]));
          (str "parameters",
           JObject [ (str "max_new_tokens", JNumber (Decimal 150 0));
                     (str "temperature", JNumber (Decimal 7 (-1)));
                     (str "return_full_text", JBool false) ]) ].
Proof.
  intros H. rewrite (ConversationFacts.sendMessage_issued _ _ _ _ H).
  eexists; eexists. split; [reflexivity|].
  unfold HuggingFaceService.buildRequest. simpl turns. simpl HuggingFaceService.body.
  rewrite HuggingFaceFacts.buildPrompt_lastUserContent.
  rewrite (lastUserContent_last_user (messagesRef st) []
             {| id := uuid; content := text; sender := user; timestamp := now |}
             eq_refl (Forall_nil _)).
  reflexivity.
Qed.

Lemma chat_request_carries_the_sent_text_witness :
  trim (str "I feel anxious") <> [] /\
  exists (c : Call) (issuedAt : State),
    sendMessage (str "I feel anxious") Samples.uuid1 Samples.time1 initialState
    = (Some c, issuedAt) /\
    HuggingFaceService.body
      (HuggingFaceService.buildRequest Samples.key (turns c) (systemPrompt c))
    = JObject
        [ (str "inputs",
           JString
             (lines
                [ str "You are a supportive and empathetic mental health chatbot. Respond naturally and briefly to the user's message.";
                  [];
                  str "User: " ++ str "I feel anxious";
                  str "Assistant:" ]));
          (str "parameters",
           JObject [ (str "max_new_tokens", JNumber (Decimal 150 0));
                     (str "temperature", JNumber (Decimal 7 (-1)));
                     (str "return_full_text", JBool false) ]) ].
Proof.
  split; [discriminate|].
  apply (chat_request_carries_the_sent_text Samples.key
           (str "I feel anxious") Samples.uuid1 Samples.time1 initialState).
  discriminate.
Defined.

(** X9. The request of a report generation is built like a chat
    request: its prompt is the persona line followed by the last user
    message that [messagesRef] holds, and by the text [undefined] when
    [messagesRef] holds no user message (the greeting alone, or
    nothing); the report instruction is not in it. *)
Theorem report_request_carries_the_last_user_message (st : State) :
  (Forall (fun msg => sender msg = bot) (messagesRef st) ->
   HuggingFaceService.buildPrompt (turns (fst (generateReport st)))
   = lines
       [ str "You are a supportive and empathetic mental health chatbot. Respond naturally and briefly to the user's message.";
         [];
         str "User: undefined";
         str "Assistant:" ]) /\
  (forall (before after : list Message) (msg : Message),
     messagesRef st = before ++ msg :: after ->
     sender msg = user ->
     Forall (fun m => sender m = bot) after ->
     HuggingFaceService.buildPrompt (turns (fst (generateReport st)))
     = lines
         [ str "You are a supportive and empathetic mental health chatbot. Respond naturally and briefly to the user's message.";
           [];
           str "User: " ++ content msg;
           str "Assistant:" ]).
Proof.
  split.
  - intros Hbots. simpl.
    rewrite HuggingFaceFacts.buildPrompt_lastUserContent.
    now rewrite (lastUserContent_bots _ Hbots).
  - intros before after msg Href Hmsg Hafter. simpl.
    rewrite HuggingFaceFacts.buildPrompt_lastUserContent, Href.
    now rewrite (lastUserContent_last_user before after msg Hmsg Hafter).
Qed.

Lemma report_request_carries_the_last_user_message_witness :
  Forall (fun msg => sender msg = bot) (messagesRef initialState) /\
  HuggingFaceService.buildPrompt (turns (fst (generateReport initialState)))
  = lines
      [ str "You are a supportive and empathetic mental health chatbot. Respond naturally and briefly to the user's message.";
        [];
        str "User: undefined";
        str "Assistant:" ].
Proof.
  split; [apply Forall_nil|].
  exact (proj1 (report_request_carries_the_last_user_message initialState)
           (Forall_nil _)).
Defined.

(** *** Invariants of the runs *)

Section RunInvariants.

Variable JSON_parse : jsstring -> option json.
Variable HF_API_KEY : jsstring.

Local Abbreviation step := (step JSON_parse HF_API_KEY).
Local Abbreviation run := (run JSON_parse HF_API_KEY).

Lemma run_cons (w : World) (ev : Event) (evs : list Event) :
  run w (ev :: evs) = run (step w ev) evs.
Proof. reflexivity. Qed.

(** A property kept by every event holds along every run. *)
Lemma run_invariant (P : World -> Prop) :
  (forall w ev, P w -> P (step w ev)) ->
  forall evs w, P w -> P (run w evs).
Proof.
  intros Hstep evs. induction evs as [|ev evs IH]; intros w Hw; [exact Hw|].
  rewrite run_cons. apply IH, Hstep, Hw.
Qed.

(** The fields of the state after the resumed part of [generateReport]. *)
Lemma generateReport_resumed_fields (awaited : Result jsstring) (now : jsstring) (st : State) :
  let st' := snd (generateReport_resumed JSON_parse awaited now st) in
  messages st' = messages st /\
  messagesRef st' = messagesRef st /\
  isLoading st' = isLoading st /\
  conversationStarted st' = conversationStarted st /\
  isReportGenerating st' = false /\
  (error st' = error st \/
   error st' = Some (str "Failed to generate a valid report. Please try again.") \/
   error st' = Some (str "Failed to generate report. Please try again.")).
Proof.
  unfold generateReport_resumed.
  destruct awaited as [text|e]; [|simpl; tauto].
  destruct (truthy_string text); [|simpl; tauto].
  destruct (JSON_parse text); simpl; tauto.
Qed.

(** The fields of the state after the resumed part of [sendMessage]. *)
Lemma sendMessage_resumed_fields (awaited : Result jsstring) (uuid now : jsstring) (st : State) :
  let st' := snd (sendMessage_resumed awaited uuid now st) in
  messagesRef st' = messagesRef st /\
  isLoading st' = false /\
  conversationStarted st' = conversationStarted st /\
  isReportGenerating st' = isReportGenerating st /\
  report st' = report st /\
  (error st' = error st \/
   error st' = Some (str "Failed to get response. Please try again.")).
Proof.
  unfold sendMessage_resumed.
  destruct awaited as [text|e]; [|simpl; tauto].
  destruct (truthy_string text); simpl; tauto.
Qed.

(** **** After the greeting *)

Lemma step_keeps_greeting_done (w : World) (ev : Event) :
  conversationStarted (state w) = true /\ timeouts w = 0 ->
  conversationStarted (state (step w ev)) = true /\ timeouts (step w ev) = 0.
Proof.
  intros [Hs Ht].
  destruct ev as [|uuid now| |text uuid now|i outcome uuid now| |i outcome now].
  - simpl. rewrite Hs. simpl. auto.
  - simpl. rewrite Ht. auto.
  - simpl. auto.
  - simpl. destruct (trim text) as [|c r] eqn:E.
    + rewrite (ConversationFacts.sendMessage_blank _ _ _ _ E). simpl. auto.
    + assert (Hne : trim text <> []) by congruence.
      rewrite (ConversationFacts.sendMessage_issued _ _ _ _ Hne). simpl. auto.
  - simpl. destruct (nth_error (inflight w) i) as [[[|] c]|]; simpl; auto.
    destruct (sendMessage_resumed_fields (settled HF_API_KEY c outcome) uuid now (state w))
      as (_ & _ & -> & _). auto.
  - simpl. auto.
  - simpl. destruct (nth_error (inflight w) i) as [[[|] c]|]; simpl; auto.
    destruct (generateReport_resumed_fields (settled HF_API_KEY c outcome) now (state w))
      as (_ & _ & _ & -> & _). auto.
Qed.

(** X11. Once the greeting timeout has fired (the conversation is
    started and no timeout is set), the transcript is append-only for
    good: along any further sequence of events every message stays where
    it is and new ones come after it. *)
Theorem transcript_append_only_after_greeting (w : World) (evs : list Event) :
  conversationStarted (state w) = true ->
  timeouts w = 0 ->
  exists suffix : list Message,
    messages (state (run w evs)) = messages (state w) ++ suffix.
Proof.
  revert w. induction evs as [|ev evs IH]; intros w Hs Ht.
  - exists []. now rewrite app_nil_r.
  - rewrite run_cons.
    destruct (step_keeps_greeting_done w ev (conj Hs Ht)) as [Hs' Ht'].
    destruct (IH _ Hs' Ht') as [suffix2 H2].
    assert (H1 : exists suffix1,
               messages (state (step w ev)) = messages (state w) ++ suffix1).
    { destruct ev as [|uuid now| | | | |];
        try (apply ConversationFacts.step_appends_unless_greeting; discriminate).
      exists []. simpl. rewrite Ht. now rewrite app_nil_r. }
    destruct H1 as [suffix1 H1].
    exists (suffix1 ++ suffix2). now rewrite H2, H1, app_assoc.
Qed.

(** **** The flags and the calls in flight *)

Lemma inFlightOf_removeNth (k k' : CallKind) (c : Call) (i : nat) (l : list InFlight) :
  nth_error l i = Some {| kind := k'; call := c |} ->
  CallKind_eqb k' k = false ->
  existsb (fun f => CallKind_eqb (kind f) k) (removeNth i l)
  = existsb (fun f => CallKind_eqb (kind f) k) l.
Proof.
  revert i. induction l as [|f l IH]; intros i Hnth Hk.
  - now destruct i.
  - destruct i as [|i]; simpl in Hnth.
    + injection Hnth as ->. simpl. now rewrite Hk.
    + simpl. now rewrite (IH i Hnth Hk).
Qed.

Let flagsBacked (w : World) : Prop :=
  (isLoading (state w) = true -> inFlightOf ChatTurn w = true) /\
  (isReportGenerating (state w) = true -> inFlightOf ReportSynthesis w = true).

Lemma step_keeps_flagsBacked (w : World) (ev : Event) :
  flagsBacked w -> flagsBacked (step w ev).
Proof.
  unfold flagsBacked, inFlightOf. intros [Hl Hr].
  destruct ev as [|uuid now| |text uuid now|i outcome uuid now| |i outcome now].
  - simpl. destruct (conversationStarted (state w)); simpl; auto.
  - simpl. destruct (timeouts w); simpl; auto.
  - simpl. auto.
  - simpl. destruct (trim text) as [|c r] eqn:E.
    + rewrite (ConversationFacts.sendMessage_blank _ _ _ _ E). simpl. auto.
    + assert (Hne : trim text <> []) by congruence.
      rewrite (ConversationFacts.sendMessage_issued _ _ _ _ Hne). simpl.
      rewrite !existsb_app. simpl. split; intros H.
      * apply orb_true_r.
      * rewrite (Hr H). reflexivity.
  - simpl. destruct (nth_error (inflight w) i) as [[[|] c]|] eqn:Hnth; simpl; auto.
    destruct (sendMessage_resumed_fields (settled HF_API_KEY c outcome) uuid now (state w))
      as (_ & -> & _ & -> & _).
    split; [discriminate|]. intros H.
    rewrite (inFlightOf_removeNth ReportSynthesis _ _ _ _ Hnth eq_refl). auto.
  - simpl. rewrite !existsb_app. simpl. split; intros H.
    + rewrite (Hl H). reflexivity.
    + apply orb_true_r.
  - simpl. destruct (nth_error (inflight w) i) as [[[|] c]|] eqn:Hnth; simpl; auto.
    destruct (generateReport_resumed_fields (settled HF_API_KEY c outcome) now (state w))
      as (_ & _ & -> & _ & -> & _).
    split; [|discriminate]. intros H.
    rewrite (inFlightOf_removeNth ChatTurn _ _ _ _ Hnth eq_refl). auto.
Qed.

(** X12. The loading flags are never left on: along any sequence of
    events from the initial state, [isLoading] is true only while a chat
    call is in flight, and [isReportGenerating] only while a report call
    is in flight. *)
Theorem flags_on_only_while_a_call_is_in_flight (evs : list Event) :
  (isLoading (state (run initialWorld evs)) = true ->
   inFlightOf ChatTurn (run initialWorld evs) = true) /\
  (isReportGenerating (state (run initialWorld evs)) = true ->
   inFlightOf ReportSynthesis (run initialWorld evs) = true).
Proof.
  apply (run_invariant flagsBacked step_keeps_flagsBacked evs initialWorld).
  split; discriminate.
Qed.

(** **** The messages and the error *)

Let transcriptWellFormed (w : World) : Prop :=
  Forall wellFormed (messages (state w)) /\ Forall wellFormed (messagesRef (state w)).

Lemma step_keeps_transcriptWellFormed (w : World) (ev : Event) :
  transcriptWellFormed w -> transcriptWellFormed (step w ev).
Proof.
  unfold transcriptWellFormed. intros [Hm Hr].
  destruct ev as [|uuid now| |text uuid now|i outcome uuid now| |i outcome now].
  - simpl. destruct (conversationStarted (state w)); simpl; auto.
  - simpl. destruct (timeouts w); simpl; auto.
    split; [|exact Hr]. repeat constructor. discriminate.
  - simpl. auto.
  - simpl. destruct (trim text) as [|c r] eqn:E.
    + rewrite (ConversationFacts.sendMessage_blank _ _ _ _ E). simpl. auto.
    + assert (Hne : trim text <> []) by congruence.
      rewrite (ConversationFacts.sendMessage_issued _ _ _ _ Hne). simpl.
      split; [|exact Hr]. apply Forall_app. split; [exact Hm|].
      repeat constructor. exact Hne.
  - simpl. destruct (nth_error (inflight w) i) as [[[|] c]|] eqn:Hnth; simpl; auto.
    destruct (settled HF_API_KEY c outcome) as [response|e].
    + unfold sendMessage_resumed. destruct (truthy_string response) eqn:T; simpl.
      * split; [|exact Hr]. apply Forall_app. split; [exact Hm|].
        repeat constructor. unfold wellFormed. simpl.
        now apply ConversationFacts.truthy_string_nonempty.
      * auto.
    + rewrite ConversationFacts.sendMessage_resumed_throw. simpl.
      split; [|exact Hr]. apply Forall_app. split; [exact Hm|].
      repeat constructor. discriminate.
  - simpl. auto.
  - simpl. destruct (nth_error (inflight w) i) as [[[|] c]|] eqn:Hnth; simpl; auto.
    destruct (generateReport_resumed_fields (settled HF_API_KEY c outcome) now (state w))
      as (-> & -> & _). auto.
Qed.

(** X13. No message with an empty content is ever in the transcript:
    along any sequence of events from the initial state, every user
    message has a content that is not blank and every bot message a
    content that is not empty, in the transcript and in [messagesRef]. *)
Theorem transcript_messages_have_content (evs : list Event) :
  Forall wellFormed (messages (state (run initialWorld evs))) /\
  Forall wellFormed (messagesRef (state (run initialWorld evs))).
Proof.
  apply (run_invariant transcriptWellFormed step_keeps_transcriptWellFormed
           evs initialWorld).
  split; apply Forall_nil.
Qed.

Let errorIsOwn (w : World) : Prop :=
  error (state w) = None \/
  exists e, error (state w) = Some e /\ In e providerErrors.

Lemma step_keeps_errorIsOwn (w : World) (ev : Event) :
  errorIsOwn w -> errorIsOwn (step w ev).
Proof.
  unfold errorIsOwn. intros H.
  destruct ev as [|uuid now| |text uuid now|i outcome uuid now| |i outcome now].
  - simpl. destruct (conversationStarted (state w)); simpl; auto.
  - simpl. destruct (timeouts w); simpl; auto.
  - simpl. auto.
  - simpl. destruct (trim text) as [|c r] eqn:E.
    + rewrite (ConversationFacts.sendMessage_blank _ _ _ _ E). simpl. auto.
    + assert (Hne : trim text <> []) by congruence.
      rewrite (ConversationFacts.sendMessage_issued _ _ _ _ Hne). simpl. auto.
  - simpl. destruct (nth_error (inflight w) i) as [[[|] c]|] eqn:Hnth; simpl; auto.
    destruct (sendMessage_resumed_fields (settled HF_API_KEY c outcome) uuid now (state w))
      as (_ & _ & _ & _ & _ & [-> | ->]); [exact H|].
    right. eexists. split; [reflexivity|]. simpl. auto.
  - simpl. auto.
  - simpl. destruct (nth_error (inflight w) i) as [[[|] c]|] eqn:Hnth; simpl; auto.
    destruct (generateReport_resumed_fields (settled HF_API_KEY c outcome) now (state w))
      as (_ & _ & _ & _ & _ & [-> | [-> | ->]]); [exact H| |];
      right; eexists; (split; [reflexivity|]); simpl; auto.
Qed.

(** X14. Nothing the endpoint or the runtime reports reaches the error
    field: along any sequence of events from the initial state, the
    error is absent or one of the provider's own three texts. *)
Theorem error_is_one_of_the_provider_texts (evs : list Event) :
  error (state (run initialWorld evs)) = None \/
  exists e : jsstring,
    error (state (run initialWorld evs)) = Some e /\ In e providerErrors.
Proof.
  apply (run_invariant errorIsOwn step_keeps_errorIsOwn evs initialWorld).
  now left.
Qed.

End RunInvariants.

(** X22. Committing is idempotent: a second commit right after a commit
    changes nothing.  In particular the greeting effect, run again, sets
    no second timeout. *)
Theorem commit_is_idempotent
    (JSON_parse : jsstring -> option json) (HF_API_KEY : jsstring) (w : World) :
  step JSON_parse HF_API_KEY (step JSON_parse HF_API_KEY w Commit) Commit
  = step JSON_parse HF_API_KEY w Commit.
Proof.
  destruct w as [st n fl snt]. simpl.
  destruct (conversationStarted st); reflexivity.
Qed.

(** X23. How [generateReport] ends.  Whatever the awaited call settled
    to, [isReportGenerating] is false afterwards and the transcript,
    [messagesRef] and [isLoading] are as they were.  The error is set on
    the two failure paths, each with its own text, and left as it was
    when the text parsed. *)
Theorem generateReport_settles_flags_and_error
    (JSON_parse : jsstring -> option json) (awaited : Result jsstring)
    (now : jsstring) (st : State) :
  isReportGenerating (snd (generateReport_resumed JSON_parse awaited now st)) = false /\
  messages (snd (generateReport_resumed JSON_parse awaited now st)) = messages st /\
  messagesRef (snd (generateReport_resumed JSON_parse awaited now st)) = messagesRef st /\
  isLoading (snd (generateReport_resumed JSON_parse awaited now st)) = isLoading st /\
  error (snd (generateReport_resumed JSON_parse awaited now st))
  = match awaited with
    | Throw _ => Some (str "Failed to generate report. Please try again.")
    | Ok reportJson =>
        if truthy_string reportJson then
          match JSON_parse reportJson with
          | Some _ => error st
          | None => Some (str "Failed to generate a valid report. Please try again.")
          end
        else error st
    end.
Proof.
  unfold generateReport_resumed.
  destruct awaited as [text|e]; [|simpl; tauto].
  destruct (truthy_string text); [|simpl; tauto].
  destruct (JSON_parse text); simpl; tauto.
Qed.

Lemma transcript_append_only_after_greeting_witness :
  conversationStarted
    (state (run parseText Samples.key initialWorld
              [Commit; GreetingTimeout Samples.uuid1 Samples.time1])) = true /\
  timeouts (run parseText Samples.key initialWorld
              [Commit; GreetingTimeout Samples.uuid1 Samples.time1]) = 0 /\
  exists suffix : list Message,
    messages
      (state (run parseText Samples.key
                (run parseText Samples.key initialWorld
                   [Commit; GreetingTimeout Samples.uuid1 Samples.time1])
                Samples.replyScenario))
    = messages
        (state (run parseText Samples.key initialWorld
                  [Commit; GreetingTimeout Samples.uuid1 Samples.time1]))
      ++ suffix.
Proof.
  split; [reflexivity|]. split; [reflexivity|].
  apply (transcript_append_only_after_greeting parseText Samples.key
           (run parseText Samples.key initialWorld
              [Commit; GreetingTimeout Samples.uuid1 Samples.time1])
           Samples.replyScenario);
    reflexivity.
Defined.

Lemma flags_on_only_while_a_call_is_in_flight_witness :
  isLoading (state (run parseText Samples.key initialWorld Samples.earlyMessage)) = true /\
  inFlightOf ChatTurn (run parseText Samples.key initialWorld Samples.earlyMessage) = true.
Proof.
  split; [reflexivity|].
  apply (proj1 (flags_on_only_while_a_call_is_in_flight parseText Samples.key
                  Samples.earlyMessage)).
  reflexivity.
Defined.

(** The converse of X12 does not hold: with two chat calls in flight,
    the first to settle clears [isLoading] while the other is still
    out. *)
Example isLoading_cleared_with_a_call_in_flight :
  isLoading
    (state (run parseText Samples.key initialWorld
              (Samples.backToBack
               ++ [ChatSettled 0 (Samples.generated (str "Tell me more."))
                      Samples.uuid3 Samples.time3]))) = false /\
  inFlightOf ChatTurn
    (run parseText Samples.key initialWorld
       (Samples.backToBack
        ++ [ChatSettled 0 (Samples.generated (str "Tell me more."))
               Samples.uuid3 Samples.time3])) = true.
Proof. split; reflexivity. Qed.

End ProviderExtras.

(** ** More on the export *)
Module ExportExtras.
Import JS ConversationContext.

Lemma startsWith_app_l (p s v : jsstring) :
  startsWith p s = true -> startsWith p (s ++ v) = true.
Proof.
  revert s. induction p as [|x p IH]; intros s H; [reflexivity|].
  destruct s as [|y s]; [discriminate|].
  simpl in H. apply andb_true_iff in H as [Hxy Hp].
  simpl. rewrite Hxy. now apply IH.
Qed.

Lemma includes_app_l (s v p : jsstring) :
  includes s p = true -> includes (s ++ v) p = true.
Proof.
  induction s as [|c s IH]; intros H.
  - simpl in H. rewrite orb_false_r in H. destruct p; [|discriminate].
    now destruct v.
  - simpl in H. apply orb_true_iff in H as [H|H].
    + simpl app. simpl includes. fold (includes (s ++ v) p).
      change (c :: s ++ v) with ((c :: s) ++ v).
      rewrite (startsWith_app_l _ _ _ H). reflexivity.
    + simpl app. simpl includes. fold (includes (s ++ v) p).
      rewrite (IH H). apply orb_true_r.
Qed.

Lemma includes_app_r (u s p : jsstring) :
  includes s p = true -> includes (u ++ s) p = true.
Proof.
  intros H. induction u as [|c u IH]; [exact H|].
  simpl app. simpl includes. fold (includes (u ++ s) p).
  rewrite IH. apply orb_true_r.
Qed.

(** Every item of a joined list is in the joined text. *)
Lemma includes_join_map (f : jsstring -> jsstring) (items : list jsstring) (x : jsstring) :
  In x items -> includes (join LF (map f items)) (f x) = true.
Proof.
  induction items as [|y items IH]; intros H; [contradiction|].
  destruct H as [->|H].
  - destruct items as [|z items].
    + simpl. rewrite <- (app_nil_r (f x)) at 1.
      apply (JSFacts.includes_app [] (f x) []).
    + change (join LF (map f (x :: z :: items)))
        with (f x ++ LF ++ join LF (map f (z :: items))).
      apply (JSFacts.includes_app [] (f x)).
  - destruct items as [|z items]; [contradiction|].
    change (join LF (map f (y :: z :: items)))
      with (f y ++ LF ++ join LF (map f (z :: items))).
    apply includes_app_r, includes_app_r, IH, H.
Qed.

Lemma join_map_snoc (f : jsstring -> jsstring) (init : list jsstring) (last : jsstring) :
  join LF (map f (init ++ [last]))
  = flat_map (fun item => f item ++ LF) init ++ f last.
Proof.
  induction init as [|y init IH]; [reflexivity|].
  simpl app. simpl flat_map. rewrite <- app_assoc, <- IH, <- app_assoc.
  destruct init; reflexivity.
Qed.

Lemma includes_flat_map (f : jsstring -> jsstring) (init : list jsstring) (x : jsstring) :
  In x init -> includes (flat_map (fun item => f item ++ LF) init) (f x) = true.
Proof.
  induction init as [|y init IH]; intros H; [contradiction|].
  simpl flat_map. destruct H as [->|H].
  - rewrite <- app_assoc. apply (JSFacts.includes_app [] (f x)).
  - apply includes_app_r, IH, H.
Qed.

Lemma trimStart_app_blank (w s : jsstring) :
  forallb isWhiteSpace w = true -> trimStart (w ++ s) = trimStart s.
Proof.
  induction w as [|c w IH]; intros H; [reflexivity|].
  simpl in H. apply andb_true_iff in H as [Hc Hw].
  simpl. rewrite Hc. auto.
Qed.

(** White space at the end does not change what [trimEnd] gives. *)
Lemma trimEnd_app_blank (s w : jsstring) :
  forallb isWhiteSpace w = true -> trimEnd (s ++ w) = trimEnd s.
Proof.
  intros H. unfold trimEnd. rewrite rev_app_distr, trimStart_app_blank; [reflexivity|].
  rewrite forallb_forall in *. intros c Hc. apply H. now apply in_rev.
Qed.

(** Go along the chunks of a document to the given one. *)
Ltac reach_chunk chunk :=
  lazymatch goal with
  | |- includes (chunk ++ _) _ = true => apply includes_app_l
  | |- includes (_ ++ _) _ = true => apply includes_app_r; reach_chunk chunk
  end.

(** [split("T")[0]] gives what stands before the first [T]. *)
Lemma beforeT_date (date time : jsstring) :
  Forall (fun c => c <> 84%N) date -> beforeT (date ++ 84%N :: time) = date.
Proof.
  induction 1 as [|c date Hc _ IH]; simpl; [reflexivity|].
  apply N.eqb_neq in Hc. now rewrite Hc, IH.
Qed.

Section Exporter.

Variable toLocaleString : jsstring -> jsstring.
Variable numberToString : number -> jsstring.

Local Abbreviation reportContent := (reportContent toLocaleString numberToString).
Local Abbreviation exportLayout := (exportLayout toLocaleString numberToString).

(** What follows the Recommendations heading when there is a last
    recommendation: the earlier ones, each on its line, and the last
    one, trimmed at its end together with the end of the template. *)
Lemma recommendations_tail (init : list jsstring) (last : jsstring) :
  trimEnd (LF ++ bulleted (init ++ [last]) ++ LF ++ str "    ")
  = LF ++ flat_map (fun item => (str "- " ++ item) ++ LF) init
       ++ [45%N] ++ trimEnd (32%N :: last).
Proof.
  unfold bulleted. rewrite join_map_snoc.
  assert (Hlast : trimEnd ((str "- " ++ last) ++ LF ++ str "    ")
                  = [45%N] ++ trimEnd (32%N :: last)).
  { change ((str "- " ++ last) ++ LF ++ str "    ")
      with ([] ++ 45%N :: (32%N :: last) ++ (LF ++ str "    ")).
    rewrite (JSFacts.trimEnd_app_solid [] _ 45%N eq_refl).
    now rewrite (trimEnd_app_blank (32%N :: last) (LF ++ str "    ") eq_refl). }
  rewrite <- !app_assoc.
  rewrite (JSFacts.trimEnd_app_tail LF).
  - rewrite (JSFacts.trimEnd_app_tail (flat_map _ init)).
    + rewrite <- app_assoc in Hlast. now rewrite Hlast.
    + rewrite <- app_assoc in Hlast. rewrite Hlast. discriminate.
  - rewrite (JSFacts.trimEnd_app_tail (flat_map _ init)).
    + rewrite <- app_assoc in Hlast. rewrite Hlast.
      intros E. apply app_eq_nil in E as [_ E]. discriminate.
    + rewrite <- app_assoc in Hlast. rewrite Hlast. discriminate.
Qed.

(** X15. The export keeps the lists word for word: every observed
    pattern, every tentative condition and every key quote (in its
    quotation marks) is in the document as a bullet, and so is every
    recommendation but the last.  The last recommendation is there
    without the white space it ends with, which the final [trim] takes
    away (provided something else is in it). *)
Theorem export_lists_items_verbatim (r : Report) :
  (forall pattern, In pattern (observedPatterns r) ->
     includes (reportContent r) (str "- " ++ pattern) = true) /\
  (forall condition, In condition (tentativeConditions r) ->
     includes (reportContent r) (str "- " ++ condition) = true) /\
  (forall quote, In quote (keyQuotes r) ->
     includes (reportContent r) (str "- " ++ DQ ++ quote ++ DQ) = true) /\
  (forall init last, recommendations r = init ++ [last] ->
     (forall rec, In rec init ->
        includes (reportContent r) (str "- " ++ rec) = true) /\
     (trimEnd last <> [] ->
        includes (reportContent r) (str "- " ++ trimEnd last) = true)).
Proof.
  rewrite ConversationFacts.reportContent_layout.
  unfold ConversationContext.exportLayout.
  split; [|split; [|split]].
  - intros pattern H.
    reach_chunk (bulleted (observedPatterns r)).
    apply (includes_join_map (fun item => str "- " ++ item)), H.
  - intros condition H.
    reach_chunk (conditionsSection r).
    unfold conditionsSection.
    destruct (tentativeConditions r) as [|c0 conds] eqn:E; [contradiction|].
    simpl Nat.ltb. cbv iota.
    do 3 apply includes_app_r.
    apply (includes_join_map (fun item => str "- " ++ item)), H.
  - intros quote H.
    reach_chunk (quoted (keyQuotes r)).
    apply (includes_join_map (fun item => str "- " ++ DQ ++ item ++ DQ)), H.
  - intros init last Hrecs. rewrite Hrecs, recommendations_tail. split.
    + intros rec H.
      reach_chunk (flat_map (fun item => (str "- " ++ item) ++ LF) init).
      apply (includes_flat_map (fun item => str "- " ++ item)), H.
    + intros Hlast.
      repeat (lazymatch goal with
              | |- includes ([45%N] ++ _) _ = true => fail
              | |- includes (_ ++ _) _ = true => apply includes_app_r
              end).
      change (32%N :: last) with ([32%N] ++ last).
      rewrite (JSFacts.trimEnd_app_tail [32%N] last Hlast).
      change ([45%N] ++ [32%N] ++ trimEnd last) with (str "- " ++ trimEnd last).
      generalize (str "- " ++ trimEnd last). intros bullet.
      rewrite <- (app_nil_r bullet) at 1.
      exact (JSFacts.includes_app [] bullet []).
Qed.

(** X16. The file that is handed over: none when there is no report;
    otherwise its content is the formatted report and its name is
    [mental-health-report-], the part of the timestamp before its first
    [T], and [.txt]. *)
Theorem downloadReport_names_the_file_by_date (r : Report) (date time : jsstring) :
  Forall (fun c => c <> 84%N) date ->
  downloadReport toLocaleString numberToString (Some r) (date ++ 84%N :: time)
  = Some (str "mental-health-report-" ++ date ++ str ".txt", reportContent r) /\
  downloadReport toLocaleString numberToString None (date ++ 84%N :: time) = None.
Proof.
  intros Hdate. split; [|reflexivity].
  unfold downloadReport. now rewrite (beforeT_date date time Hdate).
Qed.

End Exporter.

Lemma export_lists_items_verbatim_witness :
  In (str "avoids friends") (observedPatterns Samples.sampleReport) /\
  includes
    (reportContent Samples.sampleToLocaleString Samples.sampleNumberToString
       Samples.sampleReport)
    (str "- " ++ str "avoids friends") = true.
Proof.
  split; [right; left; reflexivity|].
  apply (proj1 (export_lists_items_verbatim
                  Samples.sampleToLocaleString Samples.sampleNumberToString
                  Samples.sampleReport)).
  right; left; reflexivity.
Defined.

Lemma downloadReport_names_the_file_by_date_witness :
  Forall (fun c => c <> 84%N) (str "2024-05-01") /\
  downloadReport Samples.sampleToLocaleString Samples.sampleNumberToString
    (Some Samples.sampleReport) (str "2024-05-01" ++ 84%N :: str "10:00:00.500Z")
  = Some (str "mental-health-report-" ++ str "2024-05-01" ++ str ".txt",
          reportContent Samples.sampleToLocaleString Samples.sampleNumberToString
            Samples.sampleReport).
Proof.
  assert (H : Forall (fun c => c <> 84%N) (str "2024-05-01"))
    by (repeat constructor; discriminate).
  split; [exact H|].
  exact (proj1 (downloadReport_names_the_file_by_date
                  Samples.sampleToLocaleString Samples.sampleNumberToString
                  Samples.sampleReport (str "2024-05-01") (str "10:00:00.500Z") H)).
Defined.

(** The white space a last recommendation ends with is not in the
    export. *)
Example export_trims_the_last_recommendation :
  reportContent Samples.sampleToLocaleString Samples.sampleNumberToString
    {| observedPatterns := [];
       tentativeConditions := [];
       moodScore := Decimal 5 0;
       sentimentScore := Decimal 5 0;
       keyQuotes := [];
       recommendations := [str "Rest  "];
       analysisDate := str "now" |}
  = lines
      [ str "Mental Health Assessment Report";
        str "Generated on: now";
        [];
        str "Mood Score: 5/10";
        str "Sentiment Score: 5/10";
        [];
        str "Observed Patterns:";
        [];
        [];
        [];
        [];
        str "Key Quotes:";
        [];
        [];
        str "Recommendations:";
        str "- Rest" ].
Proof. vm_compute. reflexivity. Qed.

End ExportExtras.

(** ** The Gemini adapter *)
Module GeminiFacts.
Import JS GeminiService.

Lemma formatMessage_inj (m1 m2 : MessageInput) :
  formatMessage m1 = formatMessage m2 -> m1 = m2.
Proof.
  destruct m1 as [r1 c1], m2 as [r2 c2]. unfold formatMessage. simpl.
  intros H. injection H as Hrole Hcontent. subst c2.
  destruct r1, r2; simpl in Hrole; try discriminate; reflexivity.
Qed.

Lemma map_formatMessage_inj (l1 l2 : list MessageInput) :
  map formatMessage l1 = map formatMessage l2 -> l1 = l2.
Proof.
  revert l2. induction l1 as [|m1 l1 IH]; intros [|m2 l2] H;
    try discriminate; [reflexivity|].
  pose proof (f_equal (@hd_error json) H) as Hm.
  pose proof (f_equal (@tl json) H) as Hl.
  cbn [map hd_error tl] in Hm, Hl.
  assert (Hm' : formatMessage m1 = formatMessage m2) by congruence.
  now rewrite (formatMessage_inj _ _ Hm'), (IH _ Hl).
Qed.

(** X17. Nothing of a call is lost in the request of the Gemini adapter:
    the payload determines the turn list (every turn, in order, with its
    role and content), the system prompt and the structured-output
    flag.  Two calls with the same payload are the same call. *)
Theorem gemini_payload_determines_the_call
    (messages1 messages2 : list MessageInput)
    (systemPrompt1 systemPrompt2 : jsstring) (isJson1 isJson2 : bool) :
  payload messages1 systemPrompt1 isJson1 = payload messages2 systemPrompt2 isJson2 ->
  messages1 = messages2 /\ systemPrompt1 = systemPrompt2 /\ isJson1 = isJson2.
Proof.
  unfold payload, contentsWithSystem. simpl app.
  intros H. injection H as Hprompt Hturns Htemperature _.
  split; [now apply map_formatMessage_inj|]. split; [exact Hprompt|].
  destruct isJson1, isJson2; try reflexivity; discriminate.
Qed.

Lemma gemini_payload_determines_the_call_witness :
  payload RuntimeSamples.conversation (str "Be brief.") false
  = payload RuntimeSamples.conversation (str "Be brief.") false /\
  RuntimeSamples.conversation = RuntimeSamples.conversation /\
  str "Be brief." = str "Be brief." /\ false = false.
Proof.
  split; [reflexivity|].
  apply (gemini_payload_determines_the_call
           RuntimeSamples.conversation RuntimeSamples.conversation
           (str "Be brief.") (str "Be brief.") false false).
  reflexivity.
Defined.

Lemma lastUserMessage_lastUserContent (messages : list MessageInput) :
  lastUserMessage messages
  = match HuggingFaceService.lastUserContent messages with
    | Some text => text
    | None => []
    end.
Proof.
  unfold lastUserMessage.
  rewrite <- HuggingFaceFacts.pop_filter_lastUserContent.
  now destruct (HuggingFaceService.pop _).
Qed.

Section Env.

Variable VITE_GEMINI_API_KEY : option jsstring.
Variable toLowerCase : jsstring -> jsstring.
Variable JSON_stringify : json -> jsstring.

Local Abbreviation simulateFallbackResponse :=
  (simulateFallbackResponse toLowerCase JSON_stringify).
Local Abbreviation generateContentFromGemini :=
  (generateContentFromGemini VITE_GEMINI_API_KEY toLowerCase JSON_stringify).

(** X18. The simulated response depends on the conversation only
    through the content of its last user turn: two turn lists that agree
    on it get the same canned reply and, at the same clock reading, the
    same simulated report. *)
Theorem simulated_response_depends_only_on_last_user_turn
    (messages1 messages2 : list MessageInput) (isJson : bool) (now : jsstring) :
  HuggingFaceService.lastUserContent messages1
  = HuggingFaceService.lastUserContent messages2 ->
  simulateFallbackResponse messages1 isJson now
  = simulateFallbackResponse messages2 isJson now.
Proof.
  intros H.
  assert (Hlast : lastUserMessage messages1 = lastUserMessage messages2)
    by (now rewrite !lastUserMessage_lastUserContent, H).
  unfold GeminiService.simulateFallbackResponse, simulatedReply, simulatedReport.
  now rewrite Hlast.
Qed.

Lemma simulatedReply_truthy (messages : list MessageInput) :
  truthy_string (simulatedReply toLowerCase messages) = true.
Proof.
  unfold simulatedReply.
  repeat match goal with
         | |- context [if ?b then _ else _] => destruct b
         end; reflexivity.
Qed.

(** X19. The Gemini adapter settles every call with a value, which the
    response decides.  A payload of an ok response with a truthy
    candidate text gives that text as it is.  A payload without a truthy
    candidate text, a body that is not JSON, a status that is not ok and
    a rejected [fetch] all give the simulated response.  In chat mode
    the value is therefore always truthy. *)
Theorem gemini_falls_back_unless_candidate_text
    (messages : list MessageInput) (systemPrompt : jsstring) (isJson : bool)
    (now : jsstring) :
  (forall (status : N) (data text : json),
     candidateText data = Some text ->
     ToBoolean (Some text) = true ->
     snd (generateContentFromGemini messages systemPrompt isJson now
            (HuggingFaceService.Resolved
               {| HuggingFaceService.ok := true;
                  HuggingFaceService.status := status;
                  HuggingFaceService.json_body := Some data |}))
     = text) /\
  (forall (status : N) (data : json),
     ToBoolean (candidateText data) = false ->
     snd (generateContentFromGemini messages systemPrompt isJson now
            (HuggingFaceService.Resolved
               {| HuggingFaceService.ok := true;
                  HuggingFaceService.status := status;
                  HuggingFaceService.json_body := Some data |}))
     = JString (simulateFallbackResponse messages isJson now)) /\
  (forall status : N,
     snd (generateContentFromGemini messages systemPrompt isJson now
            (HuggingFaceService.Resolved
               {| HuggingFaceService.ok := true;
                  HuggingFaceService.status := status;
                  HuggingFaceService.json_body := None |}))
     = JString (simulateFallbackResponse messages isJson now)) /\
  (forall (status : N) (body : option json),
     snd (generateContentFromGemini messages systemPrompt isJson now
            (HuggingFaceService.Resolved
               {| HuggingFaceService.ok := false;
                  HuggingFaceService.status := status;
                  HuggingFaceService.json_body := body |}))
     = JString (simulateFallbackResponse messages isJson now)) /\
  snd (generateContentFromGemini messages systemPrompt isJson now
         HuggingFaceService.Rejected)
  = JString (simulateFallbackResponse messages isJson now) /\
  (isJson = false ->
   forall outcome : HuggingFaceService.FetchOutcome,
     ToBoolean (Some (snd (generateContentFromGemini messages systemPrompt isJson now
                             outcome)))
     = true).
Proof.
  assert (Htext : forall (status : N) (data text : json),
             candidateText data = Some text ->
             ToBoolean (Some text) = true ->
             snd (generateContentFromGemini messages systemPrompt isJson now
                    (HuggingFaceService.Resolved
                       {| HuggingFaceService.ok := true;
                          HuggingFaceService.status := status;
                          HuggingFaceService.json_body := Some data |}))
             = text).
  { intros status data text Hcandidate Htruthy.
    unfold GeminiService.generateContentFromGemini, resume. simpl.
    now rewrite Hcandidate, Htruthy. }
  assert (Hnone : forall (status : N) (data : json),
             ToBoolean (candidateText data) = false ->
             snd (generateContentFromGemini messages systemPrompt isJson now
                    (HuggingFaceService.Resolved
                       {| HuggingFaceService.ok := true;
                          HuggingFaceService.status := status;
                          HuggingFaceService.json_body := Some data |}))
             = JString (simulateFallbackResponse messages isJson now)).
  { intros status data Hfalsy.
    unfold GeminiService.generateContentFromGemini, resume. simpl.
    now rewrite Hfalsy. }
  split; [exact Htext|]. split; [exact Hnone|].
  split; [reflexivity|]. split; [reflexivity|]. split; [reflexivity|].
  intros -> outcome.
  assert (Hreply : ToBoolean
                     (Some (JString (simulateFallbackResponse messages false now)))
                   = true)
    by (simpl; apply simulatedReply_truthy).
  destruct outcome as [|[ok status [data|]]]; try exact Hreply;
    destruct ok; try exact Hreply.
  destruct (ToBoolean (candidateText data)) eqn:T.
  - destruct (candidateText data) as [text|] eqn:E; [|discriminate].
    now rewrite (Htext status data text E T).
  - now rewrite (Hnone status data T).
Qed.

End Env.

Lemma simulated_response_depends_only_on_last_user_turn_witness :
  HuggingFaceService.lastUserContent RuntimeSamples.conversation
  = HuggingFaceService.lastUserContent RuntimeSamples.otherConversation /\
  simulateFallbackResponse RuntimeSamples.asciiLower RuntimeSamples.stringify
    RuntimeSamples.conversation false Samples.time1
  = simulateFallbackResponse RuntimeSamples.asciiLower RuntimeSamples.stringify
      RuntimeSamples.otherConversation false Samples.time1.
Proof.
  split; [reflexivity|].
  apply (simulated_response_depends_only_on_last_user_turn
           RuntimeSamples.asciiLower RuntimeSamples.stringify
           RuntimeSamples.conversation RuntimeSamples.otherConversation
           false Samples.time1).
  reflexivity.
Defined.

Lemma gemini_falls_back_unless_candidate_text_witness :
  candidateText RuntimeSamples.candidatePayload = Some (JString (str "I hear you.")) /\
  ToBoolean (Some (JString (str "I hear you."))) = true /\
  snd (generateContentFromGemini None RuntimeSamples.asciiLower
         RuntimeSamples.stringify RuntimeSamples.conversation
         (str "Be brief.") false Samples.time1
         (HuggingFaceService.Resolved
            {| HuggingFaceService.ok := true;
               HuggingFaceService.status := 200;
               HuggingFaceService.json_body := Some RuntimeSamples.candidatePayload |}))
  = JString (str "I hear you.").
Proof.
  split; [reflexivity|]. split; [reflexivity|].
  exact (proj1 (gemini_falls_back_unless_candidate_text None
                  RuntimeSamples.asciiLower RuntimeSamples.stringify
                  RuntimeSamples.conversation (str "Be brief.") false Samples.time1)
           200%N RuntimeSamples.candidatePayload (JString (str "I hear you."))
           eq_refl eq_refl).
Defined.



(** The simulated responses at work: the canned reply for a lonely
    message, and a simulated report that the reader takes back. *)
Example simulated_reply_for_lonely_message :
  snd (generateContentFromGemini None RuntimeSamples.asciiLower
         RuntimeSamples.stringify RuntimeSamples.conversation
         (str "Be brief.") false Samples.time1 HuggingFaceService.Rejected)
  = JString (str "I understand the need for connection. Have you considered joining any hobby groups or volunteering? What activities do you enjoy?").
Proof. reflexivity. Qed.

Example simulated_report_reads_back :
  match snd (generateContentFromGemini None RuntimeSamples.asciiLower
               RuntimeSamples.stringify RuntimeSamples.conversation
               (str "Write a report.") true Samples.time1
               HuggingFaceService.Rejected) with
  | JString text => parseText text
  | _ => None
  end
  = Some (ConversationContext.Report_object
            (simulatedReport RuntimeSamples.conversation Samples.time1)).
Proof. vm_compute. reflexivity. Qed.

End GeminiFacts.
